(** * steam/core/cm.py: the CM client protocol engine

    A shallow embedding of [CMClient] (src/steam/core/cm.py) and the
    properties of its handlers: envelope parsing, the channel-encryption
    handshake, Multi unpacking, logon, disconnect and the receive loop.

    The object's attributes are a record, every method is a function in
    a state-and-exception monad over the object and a chronological
    trace of the effects it has on its collaborators (logger, gevent,
    transport, event emitter). *)

From Stdlib Require Import ZArith List String Bool Lia Strings.Byte.
From Equations Require Import Equations.
Import ListNotations.
Open Scope string_scope.
Open Scope list_scope.
Open Scope Z_scope.

(* ===================================================================== *)
(** ** Byte strings and [struct]                                          *)
(* ===================================================================== *)

Module Wire.

Definition bytes := list byte.

Definition byte_val (b : byte) : Z := Z.of_N (Byte.to_N b).

Definition byte_of_Z (z : Z) : byte :=
  match Byte.of_N (Z.to_N (z mod 256)) with
  | Some b => b
  | None => x00
  end.

(** [struct.pack("<I", n)] *)
Definition pack_u32 (n : Z) : bytes :=
  [ byte_of_Z n;
    byte_of_Z (Z.shiftr n 8);
    byte_of_Z (Z.shiftr n 16);
    byte_of_Z (Z.shiftr n 24) ].

(** [struct.unpack_from("<I", data)]: [None] stands for [struct.error],
    raised when fewer than four bytes are available. *)
Definition unpack_u32 (data : bytes) : option Z :=
  match data with
  | b0 :: b1 :: b2 :: b3 :: _ =>
      Some (byte_val b0
            + Z.shiftl (byte_val b1) 8
            + Z.shiftl (byte_val b2) 16
            + Z.shiftl (byte_val b3) 24)
  | _ => None
  end.

(** Python slices [data[a:a+n]] and [data[a:]]; both clamp at the end. *)
Definition slice (a n : nat) (data : bytes) : bytes := firstn n (skipn a data).
Definition slice_from (a : nat) (data : bytes) : bytes := skipn a data.

(** Modelled from the spec: [steam.core.msg.is_proto] and
    [clear_proto_bit] are imported from a module that is not part of
    the sources; the top bit of the 32-bit type identifier is the proto
    flag and is cleared before the identifier is interpreted. *)
Definition protobuf_mask : Z := 0x80000000.
Definition is_proto (emsg : Z) : bool := Z.testbit emsg 31.
Definition clear_proto_bit (emsg : Z) : Z := Z.land emsg 0x7fffffff.

(** Truth value of a byte string or [None]-able byte string. *)
Definition bytes_bool (b : bytes) : bool :=
  match b with [] => false | _ => true end.

End Wire.
Import Wire.

(* ===================================================================== *)
(** ** Enumerations and messages                                          *)
(* ===================================================================== *)

(** The members of [EMsg], [EResult] and [EUniverse] this module names;
    the remaining members of each enumeration are kept by value. *)
Inductive EMsg :=
| ChannelEncryptRequest
| ChannelEncryptResponse
| ChannelEncryptResult
| Multi
| ClientLogOnResponse
| ClientHeartBeat
| EMsgOther (value : Z).

Inductive EResult :=
| OK
| TryAnotherCM
| ServiceUnavailable
| EResultOther (value : Z).

Inductive EUniverse :=
| Public
| EUniverseOther (value : Z).

Definition EMsg_eq_dec (a b : EMsg) : {a = b} + {a <> b}.
Proof. decide equality; apply Z.eq_dec. Defined.

Definition EResult_eq_dec (a b : EResult) : {a = b} + {a <> b}.
Proof. decide equality; apply Z.eq_dec. Defined.

Definition EUniverse_eq_dec (a b : EUniverse) : {a = b} + {a <> b}.
Proof. decide equality; apply Z.eq_dec. Defined.

Definition EResult_eqb (a b : EResult) : bool :=
  if EResult_eq_dec a b then true else false.

Definition EUniverse_eqb (a b : EUniverse) : bool :=
  if EUniverse_eq_dec a b then true else false.

(** [emsg in (ChannelEncryptRequest, ChannelEncryptResponse,
    ChannelEncryptResult)] *)
Definition is_channel_encrypt (emsg : EMsg) : bool :=
  match emsg with
  | ChannelEncryptRequest | ChannelEncryptResponse | ChannelEncryptResult => true
  | _ => false
  end.

Inductive SteamID_t := SteamID (id : Z).

(** Header attributes read or written by the client. *)
Record MsgHdr := mkHdr {
  steamid : Z;
  client_sessionid : Z
}.

(** Bodies, by the attributes the handlers read. *)
Inductive Body :=
| BodyEncryptRequest (protocolVersion : Z) (universe : EUniverse) (challenge : bytes)
| BodyEncryptResponse (key : bytes) (crc : Z)
| BodyEncryptResult (eresult : EResult)
| BodyMulti (size_unzipped : Z) (message_body : bytes)
| BodyLogonResponse (eresult : EResult) (out_of_game_heartbeat_seconds : Z)
| BodyOther (raw : bytes).

Record Message := mkMessage {
  msg_emsg : EMsg;
  msg_proto : bool;            (* MsgProto rather than Msg *)
  header : MsgHdr;
  body : Body;
  steamID : option SteamID_t;  (* identity stamped by send_message *)
  sessionID : option Z
}.

(* ===================================================================== *)
(** ** Exceptions, effects and the object                                 *)
(* ===================================================================== *)

Inductive exn :=
| AttributeError (what : string)
| ValueError (what : string)
| StructError
| UnboundLocalError (name : string)
| RuntimeError (what : string)
| CodecException (what : string)   (* an Exception raised while loading a body *)
| ZipException (what : string)
| GreenletExit.

(** [except RuntimeError] and [except Exception] *)
Definition is_RuntimeError (e : exn) : bool :=
  match e with RuntimeError _ => true | _ => false end.

Definition is_Exception (e : exn) : bool :=
  match e with GreenletExit => false | _ => true end.

Inductive result (A : Type) :=
| Ok (a : A)
| Raise (e : exn).
Arguments Ok {A} a.
Arguments Raise {A} e.

Definition tid := nat.

(** What a spawned greenlet runs. *)
Inductive task :=
| TConnect
| TDisconnect
| TRecvMessages
| THeartbeat (interval : Z).

Inductive event_key :=
| KMsg (emsg : EMsg)
| KName (name : string).

Inductive level := DEBUG | ERROR | FATAL.

Inductive pyval :=
| VMsg (m : Message)
| VEMsg (e : EMsg)
| VBool (b : bool)
| VResult (r : EResult)
| VKey (k : event_key).

Inductive event :=
| EvLog (lvl : level) (fmt : string) (args : list pyval)
| EvLogException (e : exn)
| EvSpawn (t : tid) (what : task)
| EvKill (t : tid)
| EvExit (t : tid)                       (* a greenlet ended by itself *)
| EvEmit (key : option event_key) (args : list pyval)
| EvOn (key : event_key) (handler : string)  (* self.on(key, handler) *)
| EvSleep (interval : Z)
| EvTransportConnect (addr : string * string)
| EvTransportDisconnect
| EvPutMessage (data : bytes).

Record CMClient := mkClient {
  verbose_debug : bool;
  connected : bool;
  key : option bytes;
  hmac_secret : option bytes;
  steam_id : option SteamID_t;
  session_id : option Z;
  _recv_loop : option tid;
  _heartbeat_loop : option tid
}.

Record World := mkWorld {
  self : CMClient;
  trace : list event
}.

Definition M (A : Type) : Type := World -> result A * World.

Definition ret {A} (a : A) : M A := fun w => (Ok a, w).

Definition raise {A} (e : exn) : M A := fun w => (Raise e, w).

Definition bind {A B} (c : M A) (k : A -> M B) : M B :=
  fun w =>
    match c w with
    | (Ok a, w') => k a w'
    | (Raise e, w') => (Raise e, w')
    end.

Declare Scope py_scope.
Delimit Scope py_scope with py.
Notation "x <- c ;; k" := (bind c (fun x => k))
  (at level 61, c at next level, right associativity) : py_scope.
Notation "c ;; k" := (bind c (fun _ => k))
  (at level 61, right associativity) : py_scope.
Open Scope py_scope.

(** [try: body except <class> as e: handler e] *)
Definition try_except {A} (body : M A) (catches : exn -> bool)
    (handler : exn -> M A) : M A :=
  fun w =>
    match body w with
    | (Ok a, w') => (Ok a, w')
    | (Raise e, w') => if catches e then handler e w' else (Raise e, w')
    end.

Definition get {A} (f : CMClient -> A) : M A := fun w => (Ok (f (self w)), w).

Definition modify (f : CMClient -> CMClient) : M unit :=
  fun w => (Ok tt, mkWorld (f (self w)) (trace w)).

Definition tell (e : event) : M unit :=
  fun w => (Ok tt, mkWorld (self w) (trace w ++ [e])).

(** Attribute assignments. *)
Definition set_verbose_debug (v : bool) (c : CMClient) : CMClient :=
  mkClient v (connected c) (key c) (hmac_secret c) (steam_id c)
           (session_id c) (_recv_loop c) (_heartbeat_loop c).
Definition set_connected (v : bool) (c : CMClient) : CMClient :=
  mkClient (verbose_debug c) v (key c) (hmac_secret c) (steam_id c)
           (session_id c) (_recv_loop c) (_heartbeat_loop c).
Definition set_key (v : option bytes) (c : CMClient) : CMClient :=
  mkClient (verbose_debug c) (connected c) v (hmac_secret c) (steam_id c)
           (session_id c) (_recv_loop c) (_heartbeat_loop c).
Definition set_hmac_secret (v : option bytes) (c : CMClient) : CMClient :=
  mkClient (verbose_debug c) (connected c) (key c) v (steam_id c)
           (session_id c) (_recv_loop c) (_heartbeat_loop c).
Definition set_steam_id (v : option SteamID_t) (c : CMClient) : CMClient :=
  mkClient (verbose_debug c) (connected c) (key c) (hmac_secret c) v
           (session_id c) (_recv_loop c) (_heartbeat_loop c).
Definition set_session_id (v : option Z) (c : CMClient) : CMClient :=
  mkClient (verbose_debug c) (connected c) (key c) (hmac_secret c) (steam_id c)
           v (_recv_loop c) (_heartbeat_loop c).
Definition set_recv_loop (v : option tid) (c : CMClient) : CMClient :=
  mkClient (verbose_debug c) (connected c) (key c) (hmac_secret c) (steam_id c)
           (session_id c) v (_heartbeat_loop c).
Definition set_heartbeat_loop (v : option tid) (c : CMClient) : CMClient :=
  mkClient (verbose_debug c) (connected c) (key c) (hmac_secret c) (steam_id c)
           (session_id c) (_recv_loop c) v.

(* ===================================================================== *)
(** ** Collaborators                                                      *)
(* ===================================================================== *)

(** The result of constructing a message from received bytes: the
    constructor either yields the message or raises an [Exception]. *)
Inductive loaded :=
| Loaded (m : Message)
| LoadFailed (what : string).

(** What the client consumes from modules outside this file: the [EMsg]
    enumeration, the message classes of [steam.core.msg], [steam.core.crypto],
    [binascii], [zipfile] and [EventEmitter.wait_event].  [wait_event]
    suspends the calling greenlet, so the world it resumes in is whatever
    the other greenlets left. *)
Class Collaborators := {
  EMsg_call : Z -> option EMsg;                    (* EMsg(value); None: ValueError *)
  Msg_load : EMsg -> bytes -> bool -> loaded;      (* Msg(emsg, data, extended) *)
  MsgProto_load : EMsg -> bytes -> loaded;         (* MsgProto(emsg, data) *)
  serialize : Message -> bytes;
  generate_session_key : bytes -> bytes * bytes;
  crc32 : bytes -> Z;
  symmetric_encrypt : bytes -> bytes -> bytes;
  symmetric_encrypt_HMAC : bytes -> bytes -> bytes -> bytes;
  symmetric_decrypt : bytes -> bytes -> bytes;
  symmetric_decrypt_HMAC : bytes -> bytes -> bytes -> option bytes;  (* None: RuntimeError *)
  zip_read_z : bytes -> option bytes;              (* ZipFile(...).read('z') *)
  wait_event : EMsg -> M Message;
  steam_id_bool : SteamID_t -> bool
}.

(** The bootstrap endpoints. *)
Definition server_list : list (string * string) :=
  [ ("162.254.196.41", "27020"); ("162.254.196.40", "27021");
    ("162.254.196.43", "27019"); ("162.254.196.40", "27018");
    ("162.254.196.43", "27020"); ("162.254.196.41", "27019");
    ("162.254.196.41", "27018"); ("162.254.196.42", "27020");
    ("162.254.196.41", "27017"); ("162.254.196.41", "27021");
    ("146.66.152.10", "27017"); ("146.66.152.10", "27018");
    ("146.66.152.11", "27019"); ("146.66.152.11", "27020");
    ("146.66.152.10", "27019"); ("162.254.197.42", "27018");
    ("162.254.197.41", "27019"); ("162.254.197.41", "27017");
    ("208.78.164.14", "27017"); ("208.78.164.14", "27019");
    ("208.78.164.9", "27019"); ("208.78.164.14", "27018");
    ("208.78.164.9", "27018"); ("208.78.164.13", "27017") ].

(* ===================================================================== *)
(** ** Logger and gevent                                                  *)
(* ===================================================================== *)

Definition logger_debug (fmt : string) (args : list pyval) : M unit :=
  tell (EvLog DEBUG fmt args).

Definition logger_fatal (fmt : string) (args : list pyval) : M unit :=
  tell (EvLog FATAL fmt args).

Definition logger_exception (e : exn) : M unit :=
  tell (EvLogException e).

(** The greenlets that are running after a trace: spawned, and neither
    killed nor ended since. *)
Definition running_step (acc : list (tid * task)) (e : event) : list (tid * task) :=
  match e with
  | EvSpawn t what => acc ++ [(t, what)]
  | EvKill t | EvExit t => filter (fun p => negb (Nat.eqb (fst p) t)) acc
  | _ => acc
  end.

Definition running (tr : list event) : list (tid * task) :=
  fold_left running_step tr [].

Definition is_heartbeat (p : tid * task) : bool :=
  match snd p with THeartbeat _ => true | _ => false end.

Definition heartbeats (tr : list event) : list (tid * task) :=
  filter is_heartbeat (running tr).

(** [gevent.spawn(f, ...)]: a new greenlet, named by its position in the
    trace. *)
Definition gevent_spawn (what : task) : M tid :=
  fun w =>
    let t := List.length (trace w) in
    (Ok t, mkWorld (self w) (trace w ++ [EvSpawn t what])).

(** [bool(handle)]: [None] is false, and a greenlet is true while it runs. *)
Definition greenlet_bool (h : option tid) : M bool :=
  fun w =>
    (Ok match h with
        | Some t => existsb (fun p => Nat.eqb (fst p) t) (running (trace w))
        | None => false
        end, w).

(** [handle.kill()], issued from a greenlet other than [handle]. *)
Definition greenlet_kill (h : option tid) : M unit :=
  match h with
  | Some t => tell (EvKill t)
  | None => raise (AttributeError "'NoneType' object has no attribute 'kill'")
  end.

(** Attribute reads on a message body. *)
Definition body_protocolVersion (b : Body) : M Z :=
  match b with
  | BodyEncryptRequest pv _ _ => ret pv
  | _ => raise (AttributeError "protocolVersion")
  end.

Definition body_universe (b : Body) : M EUniverse :=
  match b with
  | BodyEncryptRequest _ u _ => ret u
  | _ => raise (AttributeError "universe")
  end.

Definition body_challenge (b : Body) : M bytes :=
  match b with
  | BodyEncryptRequest _ _ c => ret c
  | _ => raise (AttributeError "challenge")
  end.

Definition body_eresult (b : Body) : M EResult :=
  match b with
  | BodyEncryptResult r => ret r
  | BodyLogonResponse r _ => ret r
  | _ => raise (AttributeError "eresult")
  end.

Definition body_size_unzipped (b : Body) : M Z :=
  match b with
  | BodyMulti n _ => ret n
  | _ => raise (AttributeError "size_unzipped")
  end.

Definition body_message_body (b : Body) : M bytes :=
  match b with
  | BodyMulti _ d => ret d
  | _ => raise (AttributeError "message_body")
  end.

Definition body_out_of_game_heartbeat_seconds (b : Body) : M Z :=
  match b with
  | BodyLogonResponse _ s => ret s
  | _ => raise (AttributeError "out_of_game_heartbeat_seconds")
  end.

Definition set_body (b : Body) (m : Message) : Message :=
  mkMessage (msg_emsg m) (msg_proto m) (header m) b (steamID m) (sessionID m).
Definition set_steamID (v : option SteamID_t) (m : Message) : Message :=
  mkMessage (msg_emsg m) (msg_proto m) (header m) (body m) v (sessionID m).
Definition set_sessionID (v : option Z) (m : Message) : Message :=
  mkMessage (msg_emsg m) (msg_proto m) (header m) (body m) (steamID m) v.

(** [Msg(EMsg.ChannelEncryptResponse)] and [MsgProto(EMsg.ClientHeartBeat)]:
    fresh outgoing messages. *)
Definition Msg_ChannelEncryptResponse : Message :=
  mkMessage ChannelEncryptResponse false (mkHdr 0 0) (BodyEncryptResponse [] 0) None None.

Definition MsgProto_ClientHeartBeat : Message :=
  mkMessage ClientHeartBeat true (mkHdr 0 0) (BodyOther []) None None.

(** Truth values of the session attributes. *)
Definition held (o : option bytes) : bool :=
  match o with Some b => bytes_bool b | None => false end.

Definition the_bytes (o : option bytes) : bytes :=
  match o with Some b => b | None => [] end.

Definition int_bool (o : option Z) : bool :=
  match o with Some z => negb (z =? 0) | None => false end.

(** Reading a local variable that an earlier branch may have left
    unassigned. *)
Definition local {A} (name : string) (v : option A) : M A :=
  match v with
  | Some a => ret a
  | None => raise (UnboundLocalError name)
  end.

(** The outcome of one [connection.get_message(timeout=1)]: a frame, or
    [queue.Empty] together with [connection.event_connected.is_set()]. *)
Inductive inbound :=
| Got (message : bytes)
| Empty (event_connected : bool).

(** A loop that has not returned by the end of the supplied schedule is
    still running. *)
Inductive loop_status := Returned | Running.

(* ===================================================================== *)
(** ** CMClient                                                           *)
(* ===================================================================== *)

Section CMClient.

Context {collab : Collaborators}.

(** [_init_attributes] *)
Definition _init_attributes : M unit :=
  modify (set_connected false);;
  modify (set_key None);;
  modify (set_hmac_secret None);;
  modify (set_steam_id None);;
  modify (set_session_id None);;
  modify (set_recv_loop None);;
  modify (set_heartbeat_loop None).

(** [__init__(protocol)], with [TCP = 0] and [UDP = 1]. *)
Definition TCP : Z := 0.
Definition UDP : Z := 1.

Definition blank : World :=
  mkWorld (mkClient false false None None None None None None) [].

Definition __init__ (protocol : Z) : M unit :=
  modify (set_verbose_debug false);;
  _init_attributes;;
  (if protocol =? TCP then ret tt
   else raise (ValueError "Only TCP is supported"));;
  tell (EvOn (KMsg ChannelEncryptRequest) "_handle_encrypt_request");;
  tell (EvOn (KMsg Multi) "_handle_multi");;
  tell (EvOn (KMsg ClientLogOnResponse) "_handle_logon").

(** [emit(event, *args)]: log, then hand over to [EventEmitter.emit].
    The emitter is defined in [steam.util.events], outside this module:
    the hand-over is recorded in the trace, and what the subscribers of
    the key then do, the three handlers registered by [__init__] among
    them, is not run here.  Each handler is a function of its own
    below. *)
Definition emit (event : option event_key) (args : list pyval) : M unit :=
  match event with
  | Some k => logger_debug "Emit event: %s" [VKey k]
  | None => ret tt
  end;;
  tell (EvEmit event args).

(** [connect()], run against a schedule of attempts: the index drawn
    by [random.choice] and whether [event_connected] is set when the 15
    second timeout block is left. *)
Fixpoint connect_loop (attempts : list (nat * bool)) : M loop_status :=
  match attempts with
  | [] => ret Running
  | (i, up) :: rest =>
      let server_addr :=
        nth (i mod List.length server_list) server_list ("", "") in
      tell (EvTransportConnect server_addr);;
      if negb up then
        logger_debug "Failed to connect. Retrying..." [];;
        connect_loop rest
      else
        modify (set_connected true);;
        emit (Some (KName "connected")) [];;
        t <- gevent_spawn TRecvMessages;;
        modify (set_recv_loop (Some t));;
        ret Returned
  end.

Definition connect (attempts : list (nat * bool)) : M loop_status :=
  logger_debug "Connect initiated." [];;
  connect_loop attempts.

(** [disconnect(reconnect=False)] *)
Definition disconnect (reconnect : bool) : M unit :=
  (if reconnect then (_ <- gevent_spawn TConnect;; ret tt) else ret tt);;
  tell EvTransportDisconnect;;
  hb <- get _heartbeat_loop;;
  hb_alive <- greenlet_bool hb;;
  (if hb_alive then greenlet_kill hb else ret tt);;
  rl <- get _recv_loop;;
  greenlet_kill rl;;
  _init_attributes;;
  emit (Some (KName "disconnected")) [].

(** [send_message(message)]: the argument is any Python value, and only
    an instance of [Msg] or [MsgProto] passes the [isinstance] test. *)
Definition send_message (message : pyval) : M unit :=
  match message with
  | VMsg message =>
      sid <- get steam_id;;
      let message :=
        match sid with
        | Some s => if steam_id_bool s then set_steamID sid message else message
        | None => message
        end in
      ssid <- get session_id;;
      let message := if int_bool ssid then set_sessionID ssid message else message in
      vd <- get verbose_debug;;
      (if vd then logger_debug "Outgoing: %s\n%s" [VMsg message; VMsg message]
       else logger_debug "Outgoing: %s" [VMsg message]);;
      let data := serialize message in
      k <- get key;;
      h <- get hmac_secret;;
      let data :=
        if held k then
          if held h then symmetric_encrypt_HMAC data (the_bytes k) (the_bytes h)
          else symmetric_encrypt data (the_bytes k)
        else data in
      tell (EvPutMessage data)
  | _ => raise (ValueError "Expected Msg or MsgProto, got %s")
  end.

(** [_parse_message(message)] *)
Definition _parse_message (message : bytes) : M unit :=
  c <- get connected;;
  if negb c then ret tt else
  emsg_id <- match unpack_u32 message with
             | Some v => ret v
             | None => raise StructError
             end;;
  emsg <- match EMsg_call (clear_proto_bit emsg_id) with
          | Some e => ret e
          | None => raise (ValueError "is not a valid EMsg")
          end;;
  msg <- (if is_channel_encrypt emsg then
            match Msg_load emsg message false with
            | Loaded m => ret (Some m)
            | LoadFailed what => raise (CodecException what)
            end
          else
            try_except
              (if is_proto emsg_id then
                 match MsgProto_load emsg message with
                 | Loaded m => ret (Some m)
                 | LoadFailed what => raise (CodecException what)
                 end
               else
                 match Msg_load emsg message true with
                 | Loaded m => ret (Some m)
                 | LoadFailed what => raise (CodecException what)
                 end)
              is_Exception
              (fun e =>
                 logger_fatal "Failed to deserialize message: %s (is_proto: %s)"
                              [VEMsg emsg; VBool (is_proto emsg_id)];;
                 logger_exception e;;
                 ret None));;
  vd <- get verbose_debug;;
  (if vd then
     m <- local "msg" msg;;
     logger_debug "Incoming: %s\n%s" [VMsg m; VMsg m]
   else
     m <- local "msg" msg;;
     logger_debug "Incoming: %s" [VMsg m]);;
  m <- local "msg" msg;;
  emit (Some (KMsg emsg)) [VMsg m].

(** [_recv_messages()], run against a schedule of [get_message]
    outcomes. *)
Fixpoint _recv_messages (feed : list inbound) : M loop_status :=
  match feed with
  | [] => ret Running
  | Empty event_connected :: rest =>
      if negb event_connected then
        _ <- gevent_spawn TDisconnect;;
        ret Returned
      else _recv_messages rest
  | Got message :: rest =>
      k <- get key;;
      h <- get hmac_secret;;
      message <-
        (if held k then
           if held h then
             try_except
               (match symmetric_decrypt_HMAC message (the_bytes k) (the_bytes h) with
                | Some plain => ret (Some plain)
                | None => raise (RuntimeError "Unable to decrypt message. HMAC does not match.")
                end)
               is_RuntimeError
               (fun e =>
                  logger_exception e;;
                  _ <- gevent_spawn TDisconnect;;
                  ret None)
           else ret (Some (symmetric_decrypt message (the_bytes k)))
         else ret (Some message));;
      match message with
      | None => ret Returned
      | Some message =>
          _parse_message message;;
          _recv_messages rest
      end
  end.

(** [_handle_encrypt_request(msg)] *)
Definition _handle_encrypt_request (msg : Message) : M unit :=
  logger_debug "Securing channel" [];;
  valid <- try_except
             (pv <- body_protocolVersion (body msg);;
              (if negb (pv =? 1)
               then raise (RuntimeError "Unsupported protocol version")
               else ret tt);;
              u <- body_universe (body msg);;
              (if negb (EUniverse_eqb u Public)
               then raise (RuntimeError "Unsupported universe")
               else ret tt);;
              ret true)
             is_RuntimeError
             (fun e =>
                logger_exception e;;
                _ <- gevent_spawn TDisconnect;;
                ret false);;
  if negb valid then ret tt else
  let resp := Msg_ChannelEncryptResponse in
  challenge <- body_challenge (body msg);;
  let '(key, resp_key) := generate_session_key challenge in
  let resp := set_body (BodyEncryptResponse resp_key 0) resp in
  let resp := set_body (BodyEncryptResponse resp_key
                          (Z.land (crc32 resp_key) 0xffffffff)) resp in
  send_message (VMsg resp);;
  msg <- wait_event ChannelEncryptResult;;
  er <- body_eresult (body msg);;
  if negb (EResult_eqb er OK) then
    logger_debug "Failed to secure channel: %s" [VResult er];;
    _ <- gevent_spawn TDisconnect;;
    ret tt
  else
    logger_debug "Channel secured" [];;
    modify (set_key (Some key));;
    (if bytes_bool challenge
     then modify (set_hmac_secret (Some (firstn 16 key)))
     else ret tt);;
    emit (Some (KName "channel_secured")) [].

(** The [while len(data) > 0] loop of [_handle_multi], over the
    method it feeds each slice to. *)
Equations? multi_loop (parse : bytes -> M unit) (data : bytes) (w : World)
    : result unit * World by wf (List.length data) lt :=
  multi_loop parse [] w := (Ok tt, w);
  multi_loop parse (b :: rest) w with unpack_u32 (b :: rest) => {
    | None := (Raise StructError, w);
    | Some size with parse (slice 4 (Z.to_nat size) (b :: rest)) w => {
      | (Ok _, w') :=
          multi_loop parse (slice_from (4 + Z.to_nat size) (b :: rest)) w';
      | (Raise e, w') := (Raise e, w') } }.
Proof.
  destruct rest as [|b1 [|b2 [|b3 tail]]]; simpl; try lia.
  unfold slice_from. rewrite length_skipn. lia.
Qed.

(** [_handle_multi(msg)] *)
Definition _handle_multi (msg : Message) : M unit :=
  logger_debug "Unpacking CMsgMulti" [];;
  size_unzipped <- body_size_unzipped (body msg);;
  data <- (if negb (size_unzipped =? 0) then
             logger_debug "Unzipping body" [];;
             message_body <- body_message_body (body msg);;
             data <- match zip_read_z message_body with
                     | Some d => ret d
                     | None => raise (ZipException "read")
                     end;;
             size_unzipped <- body_size_unzipped (body msg);;
             if negb (Z.of_nat (List.length data) =? size_unzipped) then
               logger_fatal "Unzipped size mismatch" [];;
               _ <- gevent_spawn TDisconnect;;
               ret None
             else ret (Some data)
           else
             message_body <- body_message_body (body msg);;
             ret (Some message_body));;
  match data with
  | None => ret tt
  | Some data => multi_loop _parse_message data
  end.



(** [_handle_logon(msg)] *)
Definition _handle_logon (msg : Message) : M unit :=
  result <- body_eresult (body msg);;
  if EResult_eqb result TryAnotherCM || EResult_eqb result ServiceUnavailable then
    disconnect true
  else if EResult_eqb result OK then
    logger_debug "Logon completed" [];;
    modify (set_steam_id (Some (SteamID (steamid (header msg)))));;
    modify (set_session_id (Some (client_sessionid (header msg))));;
    hb <- get _heartbeat_loop;;
    hb_alive <- greenlet_bool hb;;
    (if hb_alive then greenlet_kill hb else ret tt);;
    logger_debug "Heartbeat started." [];;
    interval <- body_out_of_game_heartbeat_seconds (body msg);;
    t <- gevent_spawn (THeartbeat interval);;
    modify (set_heartbeat_loop (Some t))
  else ret tt.

End CMClient.

Arguments send_message : simpl never.

(* ===================================================================== *)
(** ** Observations on traces                                             *)
(* ===================================================================== *)

(** The events a run appended to the trace it started from. *)
Definition added (w w' : World) : list event :=
  skipn (List.length (trace w)) (trace w').

Definition fatal_logged (tr : list event) : bool :=
  existsb (fun e => match e with EvLog FATAL _ _ => true | _ => false end) tr.

(** What was handed to the event emitter, in order. *)
Definition emitted (tr : list event) : list (option event_key * list pyval) :=
  flat_map (fun e => match e with EvEmit k args => [(k, args)] | _ => [] end) tr.

(** What was put on the transport, in order. *)
Definition sent (tr : list event) : list bytes :=
  flat_map (fun e => match e with EvPutMessage d => [d] | _ => [] end) tr.

Definition task_eq_dec (a b : task) : {a = b} + {a <> b}.
Proof. decide equality; apply Z.eq_dec. Defined.

(** The greenlets spawned to run [what], in order. *)
Definition spawned (what : task) (tr : list event) : list tid :=
  flat_map (fun e => match e with
                     | EvSpawn t k => if task_eq_dec k what then [t] else []
                     | _ => []
                     end) tr.

Definition spawned_heartbeats (tr : list event) : list tid :=
  flat_map (fun e => match e with
                     | EvSpawn t (THeartbeat _) => [t]
                     | _ => []
                     end) tr.

(** The attributes as [_init_attributes] leaves them. *)
Definition reset (c : CMClient) : CMClient :=
  mkClient (verbose_debug c) false None None None None None None.

(** What [disconnect] does before it reaches [self._recv_loop.kill()]:
    the optional reconnect, the transport teardown and the guarded kill
    of the heartbeat greenlet. *)
Definition teardown (reconnect : bool) (w : World) : list event :=
  let begun :=
    (if reconnect then [EvSpawn (List.length (trace w)) TConnect] else [])
    ++ [EvTransportDisconnect] in
  begun ++
  match _heartbeat_loop (self w) with
  | Some t =>
      if existsb (fun p => Nat.eqb (fst p) t) (running (trace w ++ begun))
      then [EvKill t] else []
  | None => []
  end.

(** At most one heartbeat greenlet runs, and it is the one the
    [_heartbeat_loop] attribute holds. *)
Definition heartbeat_tracked (w : World) : Prop :=
  match heartbeats (trace w) with
  | [] => True
  | [(t, _)] => _heartbeat_loop (self w) = Some t
  | _ => False
  end.

(** A Multi body as the sender packs it: each sub-envelope behind its
    4-byte little-endian length. *)
Definition frame (sub : bytes) : bytes :=
  pack_u32 (Z.of_nat (List.length sub)) ++ sub.

Definition pack_multi (subs : list bytes) : bytes :=
  List.concat (map frame subs).

(** Feeding sub-envelopes to a parser one after the other, in order; an
    exception from one of them ends the run. *)
Fixpoint for_each (parse : bytes -> M unit) (subs : list bytes) : M unit :=
  match subs with
  | [] => ret tt
  | s :: rest => parse s;; for_each parse rest
  end.

(** The [ChannelEncryptResponse] that answers a challenge. *)
Definition encrypt_response {collab : Collaborators} (challenge : bytes) : Message :=
  let resp_key := snd (generate_session_key challenge) in
  set_body (BodyEncryptResponse resp_key (Z.land (crc32 resp_key) 0xffffffff))
           Msg_ChannelEncryptResponse.

(** The world in which [_handle_encrypt_request] starts waiting for the
    encrypt-result: the response has been logged and put on the
    transport. *)
Definition awaiting_result {collab : Collaborators} (challenge : bytes)
    (w : World) : World :=
  snd ((logger_debug "Securing channel" [];;
        send_message (VMsg (encrypt_response challenge))) w).

(** The endpoints the transport was asked to connect to, in order. *)
Definition connect_attempts (tr : list event) : list (string * string) :=
  flat_map (fun e => match e with EvTransportConnect a => [a] | _ => [] end) tr.


(** The handlers registered with the event emitter, in order. *)
Definition registered (tr : list event) : list (event_key * string) :=
  flat_map (fun e => match e with EvOn k h => [(k, h)] | _ => [] end) tr.

(** A message as [send_message] stamps it with the identity the client
    holds. *)
Definition stamped {collab : Collaborators} (c : CMClient) (m : Message) : Message :=
  let m := match steam_id c with
           | Some s => if steam_id_bool s then set_steamID (steam_id c) m else m
           | None => m
           end in
  if int_bool (session_id c) then set_sessionID (session_id c) m else m.

(** The frame that carries a message under the key material the client
    holds. *)
Definition wire {collab : Collaborators} (c : CMClient) (m : Message) : bytes :=
  let data := serialize (stamped c m) in
  if held (key c) then
    if held (hmac_secret c)
    then symmetric_encrypt_HMAC data (the_bytes (key c)) (the_bytes (hmac_secret c))
    else symmetric_encrypt data (the_bytes (key c))
  else data.

(** The debug record [send_message] writes for a message. *)
Definition outgoing_note {collab : Collaborators} (c : CMClient) (m : Message) : event :=
  if verbose_debug c
  then EvLog DEBUG "Outgoing: %s\n%s" [VMsg (stamped c m); VMsg (stamped c m)]
  else EvLog DEBUG "Outgoing: %s" [VMsg (stamped c m)].

(** The debug record [_parse_message] writes for a loaded message. *)
Definition incoming_note (c : CMClient) (m : Message) : event :=
  if verbose_debug c
  then EvLog DEBUG "Incoming: %s\n%s" [VMsg m; VMsg m]
  else EvLog DEBUG "Incoming: %s" [VMsg m].

(** What a failed connection attempt leaves in the trace. *)
Definition failed_attempt (a : nat * bool) : list event :=
  [EvTransportConnect (nth (fst a mod List.length server_list) server_list ("", ""));
   EvLog DEBUG "Failed to connect. Retrying..." []].

(* ===================================================================== *)
(** ** A concrete set of collaborators                                    *)
(* ===================================================================== *)

Module Demo.

(** A small codec: the identifier, then fixed-width little-endian
    fields.  Loading fails when a field is cut short. *)
Definition emsg_call (v : Z) : option EMsg :=
  if v =? 1303 then Some ChannelEncryptRequest
  else if v =? 1304 then Some ChannelEncryptResponse
  else if v =? 1305 then Some ChannelEncryptResult
  else if v =? 1 then Some Multi
  else if v =? 751 then Some ClientLogOnResponse
  else if v =? 703 then Some ClientHeartBeat
  else if (0 <? v) && (v <? 10000) then Some (EMsgOther v)
  else None.

Definition eresult_of (v : Z) : EResult :=
  if v =? 1 then OK
  else if v =? 48 then TryAnotherCM
  else if v =? 20 then ServiceUnavailable
  else EResultOther v.

Definition universe_of (v : Z) : EUniverse :=
  if v =? 1 then Public else EUniverseOther v.

Definition load (proto : bool) (emsg : EMsg) (data : bytes) : loaded :=
  let payload := skipn 4 data in
  let mk b := Loaded (mkMessage emsg proto (mkHdr 0 0) b None None) in
  match emsg with
  | ChannelEncryptRequest =>
      match unpack_u32 payload, unpack_u32 (skipn 4 payload) with
      | Some pv, Some u => mk (BodyEncryptRequest pv (universe_of u) (skipn 8 payload))
      | _, _ => LoadFailed "unpack requires a string argument of length 8"
      end
  | ChannelEncryptResult =>
      match unpack_u32 payload with
      | Some r => mk (BodyEncryptResult (eresult_of r))
      | None => LoadFailed "unpack requires a string argument of length 4"
      end
  | Multi =>
      match unpack_u32 payload with
      | Some n => mk (BodyMulti n (skipn 4 payload))
      | None => LoadFailed "truncated message"
      end
  | ClientLogOnResponse =>
      match unpack_u32 payload, unpack_u32 (skipn 4 payload) with
      | Some r, Some s => mk (BodyLogonResponse (eresult_of r) s)
      | _, _ => LoadFailed "truncated message"
      end
  | _ =>
      match payload with
      | [] => LoadFailed "truncated message"
      | _ => mk (BodyOther payload)
      end
  end.

Definition dump (m : Message) : bytes :=
  match body m with
  | BodyEncryptResponse k c => pack_u32 1304 ++ pack_u32 c ++ k
  | BodyOther raw => pack_u32 703 ++ raw
  | _ => []
  end.

(** The authenticated variant carries the first byte of the secret in
    front of the payload. *)
Definition seal (data k h : bytes) : bytes := firstn 1 h ++ data.

Definition unseal (data k h : bytes) : option bytes :=
  match data, h with
  | t :: rest, s :: _ => if Byte.eqb t s then Some rest else None
  | _, _ => None
  end.

Definition result_message (r : EResult) : Message :=
  mkMessage ChannelEncryptResult false (mkHdr 0 0) (BodyEncryptResult r) None None.

Definition collab : Collaborators := {|
  EMsg_call := emsg_call;
  Msg_load := fun emsg data _ => load false emsg data;
  MsgProto_load := load true;
  serialize := dump;
  generate_session_key := fun _ => (repeat x11 32, repeat x22 128);
  crc32 := fun _ => 0x1234abcd;
  symmetric_encrypt := fun data _ => data;
  symmetric_encrypt_HMAC := seal;
  symmetric_decrypt := fun data _ => data;
  symmetric_decrypt_HMAC := unseal;
  zip_read_z := fun blob => Some blob;
  wait_event := fun _ w => (Ok (result_message OK), w);
  steam_id_bool := fun _ => true
|}.

(** A client right after [__init__], and one on which [connect] has
    succeeded at the first attempt. *)
Definition fresh : World := snd (__init__ TCP blank).

Definition online : World := snd (connect [(0%nat, true)] fresh).

(** The client inside [connect], after [self.connected = True] and the
    "connected" notification, before the receive loop is spawned. *)
Definition connecting : World :=
  snd ((tell (EvTransportConnect ("162.254.196.41", "27020"));;
        modify (set_connected true);;
        emit (Some (KName "connected")) []) fresh).

Definition secured : World :=
  mkWorld (set_hmac_secret (Some (repeat x11 16))
             (set_key (Some (repeat x11 32)) (self online)))
          (trace online).


(** Received envelopes and bytes. *)
Definition truncated_request : bytes := pack_u32 1303.

Definition truncated_other : bytes := pack_u32 5000.

Definition sub1 : bytes := pack_u32 5000 ++ [x01; x02].

Definition sub2 : bytes := pack_u32 5001 ++ [x03].

Definition multi_plain : Message :=
  mkMessage Multi true (mkHdr 0 0) (BodyMulti 0 (pack_multi [sub1; sub2])) None None.

Definition multi_zipped (declared : Z) : Message :=
  mkMessage Multi true (mkHdr 0 0) (BodyMulti declared (frame sub1)) None None.

Definition encrypt_request (version : Z) (challenge : bytes) : Message :=
  mkMessage ChannelEncryptRequest false (mkHdr 0 0)
            (BodyEncryptRequest version Public challenge) None None.

Definition logon_response (code : EResult) : Message :=
  mkMessage ClientLogOnResponse true (mkHdr 76561197960265729 42)
            (BodyLogonResponse code 9) None None.

Definition logged_on : World := snd (_handle_logon (logon_response OK) online).

Definition forged_frame : bytes := [x00; x01; x02].

(** Collaborators of a session that goes wrong: the server refuses the
    channel and archives cannot be read. *)
Definition hostile : Collaborators := {|
  EMsg_call := emsg_call;
  Msg_load := fun emsg data _ => load false emsg data;
  MsgProto_load := load true;
  serialize := dump;
  generate_session_key := fun _ => (repeat x11 32, repeat x22 128);
  crc32 := fun _ => -1;
  symmetric_encrypt := fun data _ => data;
  symmetric_encrypt_HMAC := seal;
  symmetric_decrypt := fun data _ => data;
  symmetric_decrypt_HMAC := unseal;
  zip_read_z := fun _ => None;
  wait_event := fun _ w => (Ok (result_message (EResultOther 2)), w);
  steam_id_bool := fun _ => true
|}.

Definition multi_with_body (data : bytes) : Message :=
  mkMessage Multi true (mkHdr 0 0) (BodyMulti 0 data) None None.

End Demo.

(** Equal traces up to reassociation, and equal fresh task names. *)
Ltac trace_eq :=
  repeat rewrite length_app; cbn [List.length];
  repeat rewrite <- app_assoc; cbn [app];
  repeat (f_equal; try lia).

Ltac run :=
  unfold bind, ret, raise, get, modify, tell, try_except, logger_debug,
    logger_fatal, logger_exception, gevent_spawn, greenlet_bool,
    greenlet_kill, local, emit; simpl.

Section Claims.

Context {collab : Collaborators}.

(* ===================================================================== *)
(** ** Byte order                                                         *)
(* ===================================================================== *)

Lemma byte_val_of_Z (z : Z) : byte_val (byte_of_Z z) = z mod 256.
Proof.
  unfold byte_val, byte_of_Z.
  assert (Hr : 0 <= z mod 256 < 256) by (apply Z.mod_pos_bound; lia).
  destruct (Byte.of_N (Z.to_N (z mod 256))) as [b|] eqn:E.
  - apply Byte.to_of_N in E. rewrite E. apply Z2N.id. lia.
  - apply Byte.of_N_None_iff in E. lia.
Qed.

Lemma byte_val_range (b : byte) : 0 <= byte_val b < 256.
Proof.
  unfold byte_val. pose proof (Byte.to_N_bounded b). lia.
Qed.

(** [unpack_from] reads back what [pack] wrote, whatever follows it. *)
Lemma unpack_pack_u32 (n : Z) (tail : bytes) :
  0 <= n < 2 ^ 32 -> unpack_u32 (pack_u32 n ++ tail) = Some n.
Proof.
  intros Hn. unfold pack_u32. simpl app. unfold unpack_u32.
  rewrite !byte_val_of_Z, !Z.shiftl_mul_pow2, !Z.shiftr_div_pow2 by lia.
  f_equal.
  change (2 ^ 8) with 256. change (2 ^ 16) with 65536.
  change (2 ^ 24) with 16777216. change (2 ^ 32) with 4294967296 in Hn.
  Z.div_mod_to_equations. lia.
Qed.

Lemma unpack_u32_range (data : bytes) (n : Z) :
  unpack_u32 data = Some n -> 0 <= n < 2 ^ 32.
Proof.
  destruct data as [|b0 [|b1 [|b2 [|b3 tail]]]]; unfold unpack_u32;
    try discriminate.
  intros E.
  apply (f_equal (fun o => match o with Some v => v | None => 0 end)) in E.
  cbv beta iota in E. subst n.
  rewrite !Z.shiftl_mul_pow2 by lia.
  pose proof (byte_val_range b0). pose proof (byte_val_range b1).
  pose proof (byte_val_range b2). pose proof (byte_val_range b3).
  lia.
Qed.

Lemma pack_u32_length (n : Z) : List.length (pack_u32 n) = 4%nat.
Proof. reflexivity. Qed.

(* ===================================================================== *)
(** ** The monad                                                          *)
(* ===================================================================== *)

Lemma bind_ok {A B} (c : M A) (k : A -> M B) (w w' : World) (a : A) :
  c w = (Ok a, w') -> bind c k w = k a w'.
Proof. intros E. unfold bind. rewrite E. reflexivity. Qed.

Lemma bind_raise {A B} (c : M A) (k : A -> M B) (w w' : World) (e : exn) :
  c w = (Raise e, w') -> bind c k w = (Raise e, w').
Proof. intros E. unfold bind. rewrite E. reflexivity. Qed.

Lemma added_app (w : World) (c : CMClient) (more : list event) :
  added w (mkWorld c (trace w ++ more)) = more.
Proof.
  unfold added. simpl.
  rewrite skipn_app, skipn_all, Nat.sub_diag. reflexivity.
Qed.

Lemma added_refl (w : World) : added w w = [].
Proof. unfold added. apply skipn_all. Qed.


(* ===================================================================== *)
(** ** Multi unpacking                                                    *)
(* ===================================================================== *)

(** One turn of the [while] loop on a buffer that is not empty. *)
Lemma multi_loop_step (parse : bytes -> M unit) (data : bytes) (w : World) :
  data <> [] ->
  multi_loop parse data w =
    match unpack_u32 data with
    | None => (Raise StructError, w)
    | Some size =>
        match parse (slice 4 (Z.to_nat size) data) w with
        | (Ok _, w') => multi_loop parse (slice_from (4 + Z.to_nat size) data) w'
        | (Raise e, w') => (Raise e, w')
        end
    end.
Proof.
  destruct data as [|b rest]; [congruence|]. intros _.
  simp multi_loop.
  destruct (unpack_u32 (b :: rest)) as [size|]; simpl; [|reflexivity].
  destruct (parse (slice 4 (Z.to_nat size) (b :: rest)) w) as [[[]|e] w'];
    reflexivity.
Qed.

Lemma multi_loop_nil (parse : bytes -> M unit) (w : World) :
  multi_loop parse [] w = (Ok tt, w).
Proof. simp multi_loop. reflexivity. Qed.

(** The loop on a packed buffer is the in-order run over the
    sub-envelopes that were packed. *)
Lemma multi_loop_pack (parse : bytes -> M unit) (subs : list bytes) :
  Forall (fun s => Z.of_nat (List.length s) < 2 ^ 32) subs ->
  forall w, multi_loop parse (pack_multi subs) w = for_each parse subs w.
Proof.
  induction 1 as [|s rest Hs Hrest IH]; intros w.
  - apply multi_loop_nil.
  - change (pack_multi (s :: rest)) with (frame s ++ pack_multi rest).
    unfold frame. rewrite <- app_assoc.
    rewrite multi_loop_step by (unfold pack_u32; simpl; discriminate).
    rewrite unpack_pack_u32 by lia.
    rewrite Nat2Z.id.
    assert (Hslice : slice 4 (List.length s)
                       (pack_u32 (Z.of_nat (List.length s)) ++ s ++ pack_multi rest) = s).
    { unfold slice, pack_u32. simpl skipn.
      rewrite firstn_app, Nat.sub_diag, firstn_all. simpl. apply app_nil_r. }
    assert (Hrest' : slice_from (4 + List.length s)
                       (pack_u32 (Z.of_nat (List.length s)) ++ s ++ pack_multi rest)
                     = pack_multi rest).
    { unfold slice_from, pack_u32. simpl skipn.
      rewrite skipn_app, Nat.sub_diag, skipn_all. reflexivity. }
    rewrite Hslice, Hrest'. simpl for_each. unfold bind.
    destruct (parse s w) as [[[]|e] w']; [apply IH | reflexivity].
Qed.

Lemma for_each_app (parse : bytes -> M unit) (a b : list bytes) (w : World) :
  for_each parse (a ++ b) w = (for_each parse a;; for_each parse b) w.
Proof.
  revert w. induction a as [|s a IH]; intros w; [reflexivity|].
  cbn [app for_each]. unfold bind.
  destruct (parse s w) as [[[]|e] w1]; [|reflexivity].
  rewrite IH. reflexivity.
Qed.

(** A parser that returns on every sub-envelope is run on all of
    them. *)
Lemma for_each_returns (parse : bytes -> M unit) (subs : list bytes) :
  (forall s v, In s subs -> exists v', parse s v = (Ok tt, v')) ->
  forall v, exists v', for_each parse subs v = (Ok tt, v').
Proof.
  induction subs as [|s subs IH]; intros Hall v.
  - exists v. reflexivity.
  - destruct (Hall s v (or_introl eq_refl)) as [v1 Hs].
    destruct (IH (fun s' v' Hin => Hall s' v' (or_intror Hin)) v1) as [v2 Hrest].
    exists v2. cbn [for_each]. unfold bind. rewrite Hs. exact Hrest.
Qed.

(** C9 (amended): an uncompressed Multi body made of N length-prefixed
    sub-envelopes is unpacked by passing those sub-envelopes to the parse
    step in packed order, each being the bytes behind its prefix.  When
    the parse step returns on each of them, all N are parsed and the
    handler returns once the buffer is used up; when it raises on one of
    them, that exception leaves the handler and the sub-envelopes behind
    it are not parsed.  An empty buffer parses nothing and returns
    normally. *)
Theorem multi_uncompressed_in_order (msg : Message) (subs : list bytes) (w : World) :
  body msg = BodyMulti 0 (pack_multi subs) ->
  Forall (fun s => Z.of_nat (List.length s) < 2 ^ 32) subs ->
  let unpacking :=
    mkWorld (self w) (trace w ++ [EvLog DEBUG "Unpacking CMsgMulti" []]) in
  _handle_multi msg w =
    (logger_debug "Unpacking CMsgMulti" [];; for_each _parse_message subs) w
  /\ (subs = [] -> _handle_multi msg w = (Ok tt, unpacking))
  /\ ((forall s v, In s subs -> exists v', _parse_message s v = (Ok tt, v')) ->
      fst (_handle_multi msg w) = Ok tt)
  /\ (forall done bad skipped e w2 w3,
        subs = done ++ bad :: skipped ->
        for_each _parse_message done unpacking = (Ok tt, w2) ->
        _parse_message bad w2 = (Raise e, w3) ->
        _handle_multi msg w = (Raise e, w3)).
Proof.
  intros Hbody Hsubs unpacking.
  assert (E : _handle_multi msg w =
              (logger_debug "Unpacking CMsgMulti" [];;
               for_each _parse_message subs) w).
  { unfold _handle_multi. rewrite Hbody. run.
    apply multi_loop_pack. exact Hsubs. }
  assert (E' : _handle_multi msg w = for_each _parse_message subs unpacking)
    by (rewrite E; reflexivity).
  split; [exact E|]. split; [|split].
  - intros ->. rewrite E. reflexivity.
  - intros Hall. rewrite E'.
    destruct (for_each_returns _parse_message subs Hall unpacking) as [v' Hrun].
    rewrite Hrun. reflexivity.
  - intros done bad skipped e w2 w3 -> Hdone Hbad.
    rewrite E', for_each_app. unfold bind. rewrite Hdone.
    cbn [for_each]. unfold bind. rewrite Hbad. reflexivity.
Qed.


(* ===================================================================== *)
(** ** Parsing                                                            *)
(* ===================================================================== *)

(** A client that is not connected drops the envelope unread. *)
Lemma parse_message_disconnected (message : bytes) (w : World) :
  connected (self w) = false -> _parse_message message w = (Ok tt, w).
Proof.
  intros Hc. unfold _parse_message. run. rewrite Hc. reflexivity.
Qed.

(** The three channel-encryption types are loaded outside the [try]:
    a failure to load one leaves [_parse_message] as it was raised. *)
Lemma parse_message_handshake_load_failed (message : bytes) (emsg_id : Z)
    (emsg : EMsg) (what : string) (w : World) :
  connected (self w) = true ->
  unpack_u32 message = Some emsg_id ->
  EMsg_call (clear_proto_bit emsg_id) = Some emsg ->
  is_channel_encrypt emsg = true ->
  Msg_load emsg message false = LoadFailed what ->
  _parse_message message w = (Raise (CodecException what), w).
Proof.
  intros Hc Hid Hemsg Hhs Hload. unfold _parse_message. run.
  rewrite Hc. simpl. rewrite Hid. simpl. rewrite Hemsg. simpl.
  rewrite Hhs, Hload. reflexivity.
Qed.

(** For every other type the failure is caught and logged, [msg] stays
    unassigned, and the debug log that follows reads it. *)
Lemma parse_message_load_failed (message : bytes) (emsg_id : Z)
    (emsg : EMsg) (what : string) (w : World) :
  connected (self w) = true ->
  unpack_u32 message = Some emsg_id ->
  EMsg_call (clear_proto_bit emsg_id) = Some emsg ->
  is_channel_encrypt emsg = false ->
  (if is_proto emsg_id then MsgProto_load emsg message
   else Msg_load emsg message true) = LoadFailed what ->
  _parse_message message w =
    (Raise (UnboundLocalError "msg"),
     mkWorld (self w)
       (trace w ++ [EvLog FATAL "Failed to deserialize message: %s (is_proto: %s)"
                      [VEMsg emsg; VBool (is_proto emsg_id)];
                    EvLogException (CodecException what)])).
Proof.
  intros Hc Hid Hemsg Hhs Hload. unfold _parse_message. run.
  rewrite Hc. simpl. rewrite Hid. simpl. rewrite Hemsg. simpl.
  rewrite Hhs.
  destruct (is_proto emsg_id); rewrite Hload; simpl;
    destruct (verbose_debug (self w)); simpl; trace_eq.
Qed.

(** C1 (amended): while the client is connected, an envelope of a known
    type other than the three channel-encryption types whose body fails
    to load makes the parse step log fatally and hand nothing to the
    event emitter, and the exception raised by the loader is not what
    leaves the parse step. *)
Theorem parse_failure_logged_not_dispatched (message : bytes) (emsg_id : Z)
    (emsg : EMsg) (what : string) (w : World) :
  connected (self w) = true ->
  unpack_u32 message = Some emsg_id ->
  EMsg_call (clear_proto_bit emsg_id) = Some emsg ->
  is_channel_encrypt emsg = false ->
  (if is_proto emsg_id then MsgProto_load emsg message
   else Msg_load emsg message true) = LoadFailed what ->
  let w' := snd (_parse_message message w) in
  fatal_logged (added w w') = true
  /\ emitted (added w w') = []
  /\ fst (_parse_message message w) <> Raise (CodecException what).
Proof.
  intros Hc Hid Hemsg Hhs Hload. cbv zeta.
  rewrite (parse_message_load_failed message emsg_id emsg what w) by assumption.
  simpl. rewrite added_app. repeat split; try reflexivity. discriminate.
Qed.

(* ===================================================================== *)
(** ** Receive loop                                                       *)
(* ===================================================================== *)

(** C8: while a session key and a secondary secret are both held, a
    frame whose authenticated decryption fails makes the receive loop log
    the error, spawn a disconnect and return; nothing from that frame is
    parsed or handed to the event emitter, and later frames are not
    read. *)
Theorem recv_integrity_failure (k h frame : bytes) (rest : list inbound) (w : World) :
  key (self w) = Some k -> k <> [] ->
  hmac_secret (self w) = Some h -> h <> [] ->
  symmetric_decrypt_HMAC frame k h = None ->
  let w' := snd (_recv_messages (Got frame :: rest) w) in
  fst (_recv_messages (Got frame :: rest) w) = Ok Returned
  /\ self w' = self w
  /\ trace w' =
       trace w ++ [EvLogException
                     (RuntimeError "Unable to decrypt message. HMAC does not match.");
                   EvSpawn (List.length (trace w) + 1)%nat TDisconnect]
  /\ List.length (spawned TDisconnect (added w w')) = 1%nat
  /\ emitted (added w w') = [].
Proof.
  intros Hk Hk0 Hh Hh0 Hfail.
  assert (E : _recv_messages (Got frame :: rest) w =
       (Ok Returned,
        mkWorld (self w)
          (trace w ++ [EvLogException
                         (RuntimeError "Unable to decrypt message. HMAC does not match.");
                       EvSpawn (List.length (trace w) + 1)%nat TDisconnect]))).
  { simpl. run. rewrite Hk, Hh. simpl.
    destruct k as [|k0 k']; [congruence|].
    destruct h as [|h0 h']; [congruence|]. simpl.
    rewrite Hfail. simpl. trace_eq. }
  cbv zeta. rewrite E. simpl. rewrite added_app.
  repeat split; reflexivity.
Qed.

(* ===================================================================== *)
(** ** Handshake                                                          *)
(* ===================================================================== *)

Lemma send_message_returns (message : Message) (w : World) :
  send_message (VMsg message) w = (Ok tt, snd (send_message (VMsg message) w)).
Proof.
  unfold send_message. run.
  destruct (verbose_debug (self w)); reflexivity.
Qed.

(** C6: an encrypt-request whose protocol version is not 1, or whose
    universe is not the public one, makes the handler log the error and
    spawn a disconnect; it returns without putting anything on the
    transport and leaves the session attributes as they were. *)
Theorem encrypt_request_rejected (msg : Message) (version : Z)
    (universe : EUniverse) (challenge : bytes) (w : World) :
  body msg = BodyEncryptRequest version universe challenge ->
  version <> 1 \/ universe <> Public ->
  let w' := snd (_handle_encrypt_request msg w) in
  fst (_handle_encrypt_request msg w) = Ok tt
  /\ self w' = self w
  /\ (exists why,
        trace w' = trace w ++ [EvLog DEBUG "Securing channel" [];
                               EvLogException (RuntimeError why);
                               EvSpawn (List.length (trace w) + 2)%nat TDisconnect])
  /\ List.length (spawned TDisconnect (added w w')) = 1%nat
  /\ sent (added w w') = [].
Proof.
  intros Hbody Hbad.
  assert (E : exists why, _handle_encrypt_request msg w =
       (Ok tt, mkWorld (self w)
                 (trace w ++ [EvLog DEBUG "Securing channel" [];
                              EvLogException (RuntimeError why);
                              EvSpawn (List.length (trace w) + 2)%nat TDisconnect]))).
  { unfold _handle_encrypt_request. rewrite Hbody. run.
    destruct (Z.eqb_spec version 1) as [Hv|Hv]; simpl.
    - destruct Hbad as [Hbad|Hbad]; [contradiction|].
      unfold EUniverse_eqb.
      destruct (EUniverse_eq_dec universe Public) as [|_]; [contradiction|].
      simpl. eexists. trace_eq.
    - eexists. trace_eq. }
  destruct E as [why E]. simpl. rewrite E. simpl.
  rewrite added_app.
  repeat split; try reflexivity. exists why. reflexivity.
Qed.


(* ===================================================================== *)
(** ** Greenlets                                                          *)
(* ===================================================================== *)

Lemma running_snoc (tr : list event) (e : event) :
  running (tr ++ [e]) = running_step (running tr) e.
Proof. unfold running. rewrite fold_left_app. reflexivity. Qed.

Lemma filter_swap {A} (f g : A -> bool) (l : list A) :
  filter f (filter g l) = filter g (filter f l).
Proof.
  induction l as [|a l IH]; [reflexivity|]. simpl.
  destruct (g a) eqn:Eg, (f a) eqn:Ef; simpl;
    rewrite ?Eg, ?Ef, IH; reflexivity.
Qed.

(** How one more event changes the heartbeat greenlets that run. *)
Lemma heartbeats_snoc (tr : list event) (e : event) :
  heartbeats (tr ++ [e]) =
    match e with
    | EvSpawn t (THeartbeat i) => heartbeats tr ++ [(t, THeartbeat i)]
    | EvKill t | EvExit t =>
        filter (fun p => negb (Nat.eqb (fst p) t)) (heartbeats tr)
    | _ => heartbeats tr
    end.
Proof.
  unfold heartbeats. rewrite running_snoc.
  destruct e as [| |t what| | | | | | | |]; simpl; try reflexivity;
    try apply filter_swap.
  rewrite filter_app. simpl.
  destruct what; simpl; rewrite ?app_nil_r; reflexivity.
Qed.

Lemma filter_length_le {A} (f : A -> bool) (l : list A) :
  (List.length (filter f l) <= List.length l)%nat.
Proof.
  induction l as [|a l IH]; simpl; [lia|]. destruct (f a); simpl; lia.
Qed.

(** A heartbeat greenlet that runs is among the running greenlets. *)
Lemma heartbeat_is_running (tr : list event) (t : tid) (what : task) :
  In (t, what) (heartbeats tr) ->
  existsb (fun p => Nat.eqb (fst p) t) (running tr) = true.
Proof.
  unfold heartbeats. intros Hin. apply filter_In in Hin as [Hin _].
  apply existsb_exists. exists (t, what). split; [exact Hin|].
  simpl. apply Nat.eqb_refl.
Qed.

(** A trace that extends [base] splits into [base] and a piece of what
    was added. *)
Lemma extension_split {A} (base delta before after : list A) :
  base ++ delta = before ++ after ->
  (List.length base <= List.length before)%nat ->
  exists d1, before = base ++ d1 /\ delta = d1 ++ after.
Proof.
  revert before. induction base as [|a base IH]; intros before E Hlen.
  - exists before. split; [reflexivity | exact E].
  - destruct before as [|b before]; simpl in Hlen; [lia|].
    simpl in E. injection E as -> E.
    destruct (IH before E) as [d1 [-> ->]]; [lia|].
    exists d1. split; reflexivity.
Qed.

(* ===================================================================== *)
(** ** Disconnect                                                         *)
(* ===================================================================== *)

Lemma init_attributes_resets (w : World) :
  _init_attributes w = (Ok tt, mkWorld (reset (self w)) (trace w)).
Proof. reflexivity. Qed.

(** [disconnect] either stops at the unguarded kill of the receive
    greenlet or runs to the end. *)
Lemma disconnect_shape (reconnect : bool) (w : World) :
  disconnect reconnect w =
    match _recv_loop (self w) with
    | None =>
        (Raise (AttributeError "'NoneType' object has no attribute 'kill'"),
         mkWorld (self w) (trace w ++ teardown reconnect w))
    | Some t =>
        (Ok tt,
         mkWorld (reset (self w))
           (trace w ++ teardown reconnect w
              ++ [EvKill t;
                  EvLog DEBUG "Emit event: %s" [VKey (KName "disconnected")];
                  EvEmit (Some (KName "disconnected")) []]))
    end.
Proof.
  unfold disconnect, teardown. run.
  destruct reconnect; simpl;
    destruct (_heartbeat_loop (self w)) as [hb|]; simpl;
    rewrite <- ?app_assoc; simpl;
    try (destruct (existsb _ _); simpl);
    destruct (_recv_loop (self w)); run;
    rewrite <- ?app_assoc; reflexivity.
Qed.

Lemma teardown_emitted (reconnect : bool) (w : World) :
  emitted (teardown reconnect w) = [].
Proof.
  unfold teardown.
  destruct reconnect, (_heartbeat_loop (self w)); simpl;
    try destruct (existsb _ _); reflexivity.
Qed.

Lemma teardown_connects (reconnect : bool) (w : World) :
  spawned TConnect (teardown reconnect w) =
    if reconnect then [List.length (trace w)] else [].
Proof.
  unfold teardown.
  destruct reconnect, (_heartbeat_loop (self w)); simpl;
    try destruct (existsb _ _); reflexivity.
Qed.

Lemma teardown_heartbeats (reconnect : bool) (w : World) :
  spawned_heartbeats (teardown reconnect w) = [].
Proof.
  unfold teardown.
  destruct reconnect, (_heartbeat_loop (self w)); simpl;
    try destruct (existsb _ _); reflexivity.
Qed.

Lemma teardown_transport (reconnect : bool) (w : World) :
  In EvTransportDisconnect (teardown reconnect w).
Proof.
  unfold teardown. apply in_or_app. left.
  destruct reconnect; simpl; auto.
Qed.

Lemma spawned_app (what : task) (a b : list event) :
  spawned what (a ++ b) = spawned what a ++ spawned what b.
Proof. apply flat_map_app. Qed.

Lemma spawned_heartbeats_app (a b : list event) :
  spawned_heartbeats (a ++ b) = spawned_heartbeats a ++ spawned_heartbeats b.
Proof. apply flat_map_app. Qed.

(** [heartbeat_tracked] is an invariant: it holds for a new client and
    [disconnect] keeps it, whether it runs to the end or stops at the
    receive handle. *)
Lemma heartbeat_tracked_init : heartbeat_tracked (snd (__init__ TCP blank)).
Proof. exact I. Qed.

Lemma teardown_stops_heartbeats (reconnect : bool) (w : World) :
  heartbeat_tracked w -> heartbeats (trace w ++ teardown reconnect w) = [].
Proof.
  intros Htracked. unfold teardown.
  set (begun := (if reconnect then [EvSpawn (List.length (trace w)) TConnect] else [])
                ++ [EvTransportDisconnect]).
  assert (Hbegun : heartbeats (trace w ++ begun) = heartbeats (trace w)).
  { subst begun. destruct reconnect; simpl app.
    - change [EvSpawn (List.length (trace w)) TConnect; EvTransportDisconnect]
        with ([EvSpawn (List.length (trace w)) TConnect] ++ [EvTransportDisconnect]).
      rewrite app_assoc, !heartbeats_snoc. reflexivity.
    - rewrite heartbeats_snoc. reflexivity. }
  unfold heartbeat_tracked in Htracked.
  rewrite app_assoc.
  destruct (heartbeats (trace w)) as [|[old what] [|second others]] eqn:Hhb.
  - destruct (_heartbeat_loop (self w)) as [t|].
    + destruct (existsb _ _).
      * rewrite heartbeats_snoc, Hbegun. reflexivity.
      * rewrite app_nil_r. exact Hbegun.
    + rewrite app_nil_r. exact Hbegun.
  - rewrite Htracked.
    rewrite (heartbeat_is_running (trace w ++ begun) old what)
      by (rewrite Hbegun; left; reflexivity).
    rewrite heartbeats_snoc, Hbegun. simpl. rewrite Nat.eqb_refl. reflexivity.
  - contradiction.
Qed.

Lemma disconnect_keeps_heartbeat_tracked (reconnect : bool) (w : World) :
  heartbeat_tracked w -> heartbeat_tracked (snd (disconnect reconnect w)).
Proof.
  intros Htracked. rewrite disconnect_shape.
  pose proof (teardown_stops_heartbeats reconnect w Htracked) as Hstop.
  unfold heartbeat_tracked.
  destruct (_recv_loop (self w)) as [t|]; simpl snd; simpl trace.
  - change [EvKill t; EvLog DEBUG "Emit event: %s" [VKey (KName "disconnected")];
            EvEmit (Some (KName "disconnected")) []]
      with ([EvKill t] ++ [EvLog DEBUG "Emit event: %s" [VKey (KName "disconnected")]]
              ++ [EvEmit (Some (KName "disconnected")) []]).
    rewrite !app_assoc, !heartbeats_snoc, <- app_assoc, Hstop. exact I.
  - rewrite Hstop. exact I.
Qed.

(** A disconnect that ran to the end leaves no receive greenlet
    behind. *)
Lemma disconnect_clears_recv_loop (reconnect : bool) (w : World) :
  fst (disconnect reconnect w) = Ok tt ->
  self (snd (disconnect reconnect w)) = reset (self w).
Proof.
  rewrite disconnect_shape.
  destruct (_recv_loop (self w)); simpl; [reflexivity | discriminate].
Qed.

(** C10: with no receive greenlet in [_recv_loop], [disconnect] fails
    with an attribute error at the unguarded [self._recv_loop.kill()]:
    the attributes are not reset and "disconnected" is not emitted.  That
    is the state of a client that never connected and of one on which a
    disconnect already ran to the end; the heartbeat handle, which is
    guarded, may be absent without harm. *)
Theorem disconnect_without_recv_loop (reconnect : bool) (w : World) :
  _recv_loop (self w) = None ->
  let w' := snd (disconnect reconnect w) in
  fst (disconnect reconnect w) =
    Raise (AttributeError "'NoneType' object has no attribute 'kill'")
  /\ self w' = self w
  /\ emitted (added w w') = []
  /\ _recv_loop (self (snd (__init__ TCP blank))) = None
  /\ (forall r0 w0, fst (disconnect r0 w0) = Ok tt ->
        _recv_loop (self (snd (disconnect r0 w0))) = None)
  /\ (forall t,
        fst (disconnect reconnect
               (mkWorld (set_heartbeat_loop None (set_recv_loop (Some t) (self w)))
                        (trace w))) = Ok tt).
Proof.
  intros Hnone. cbv zeta. rewrite disconnect_shape, Hnone. simpl.
  rewrite added_app, teardown_emitted.
  repeat split; try reflexivity.
  - intros r0 w0 Hok. rewrite disconnect_clears_recv_loop by exact Hok.
    reflexivity.
  - intros t. rewrite disconnect_shape. reflexivity.
Qed.

(* ===================================================================== *)
(** ** Logon                                                              *)
(* ===================================================================== *)

(** C4: a logon-response with result TryAnotherCM or ServiceUnavailable
    makes the handler call [disconnect(True)] and nothing else: the
    transport is torn down, [connect] is spawned exactly once, no
    heartbeat greenlet is spawned, and the identity attributes and the
    heartbeat handle are either cleared or left as they were. *)
Theorem logon_retry_reconnects (msg : Message) (code : EResult)
    (seconds : Z) (w : World) :
  body msg = BodyLogonResponse code seconds ->
  code = TryAnotherCM \/ code = ServiceUnavailable ->
  let w' := snd (_handle_logon msg w) in
  _handle_logon msg w = disconnect true w
  /\ (exists more, trace w' = trace w ++ more)
  /\ In EvTransportDisconnect (added w w')
  /\ spawned TConnect (added w w') = [List.length (trace w)]
  /\ spawned_heartbeats (added w w') = []
  /\ (steam_id (self w') = None \/ steam_id (self w') = steam_id (self w))
  /\ (session_id (self w') = None \/ session_id (self w') = session_id (self w))
  /\ (_heartbeat_loop (self w') = None
      \/ _heartbeat_loop (self w') = _heartbeat_loop (self w)).
Proof.
  intros Hbody Hcode. cbv zeta.
  assert (E : _handle_logon msg w = disconnect true w).
  { unfold _handle_logon. rewrite Hbody.
    unfold bind at 1. unfold body_eresult, ret at 1.
    destruct Hcode as [-> | ->]; reflexivity. }
  rewrite E, disconnect_shape.
  destruct (_recv_loop (self w)) as [t|]; cbn [fst snd self trace].
  - rewrite added_app, spawned_app, spawned_heartbeats_app.
    rewrite teardown_connects, teardown_heartbeats.
    split; [reflexivity|]. split; [eexists; reflexivity|].
    split; [apply in_or_app; left; apply teardown_transport|].
    simpl. repeat split; auto.
  - rewrite added_app, teardown_connects, teardown_heartbeats.
    split; [reflexivity|]. split; [eexists; reflexivity|].
    split; [apply teardown_transport|].
    repeat split; auto.
Qed.

(** The whole effect of a successful logon-response. *)
Lemma handle_logon_ok_shape (msg : Message) (seconds : Z) (w : World) :
  body msg = BodyLogonResponse OK seconds ->
  let completed := trace w ++ [EvLog DEBUG "Logon completed" []] in
  let cancel :=
    match _heartbeat_loop (self w) with
    | Some old =>
        if existsb (fun p => Nat.eqb (fst p) old) (running completed)
        then [EvKill old] else []
    | None => []
    end in
  let t := (List.length (completed ++ cancel) + 1)%nat in
  _handle_logon msg w =
    (Ok tt,
     mkWorld (set_heartbeat_loop (Some t)
                (set_session_id (Some (client_sessionid (header msg)))
                   (set_steam_id (Some (SteamID (steamid (header msg))))
                      (self w))))
             (completed ++ cancel
                ++ [EvLog DEBUG "Heartbeat started." [];
                    EvSpawn t (THeartbeat seconds)])).
Proof.
  intros Hbody. cbv zeta. unfold _handle_logon. rewrite Hbody. run.
  destruct (_heartbeat_loop (self w)) as [old|]; simpl.
  - destruct (existsb _ _); simpl; trace_eq.
  - trace_eq.
Qed.

(** C5: a logon-response with result OK stores the account and session
    identifiers from the header, kills the heartbeat greenlet that is
    running (if any) before it spawns the new one, whose interval is the
    one in the body; from the start of the handler to its end at most one
    heartbeat greenlet runs. *)
Theorem logon_success_single_heartbeat (msg : Message) (seconds : Z) (w : World) :
  body msg = BodyLogonResponse OK seconds ->
  heartbeat_tracked w ->
  let w' := snd (_handle_logon msg w) in
  fst (_handle_logon msg w) = Ok tt
  /\ steam_id (self w') = Some (SteamID (steamid (header msg)))
  /\ session_id (self w') = Some (client_sessionid (header msg))
  /\ (exists t cancel,
        _heartbeat_loop (self w') = Some t
        /\ heartbeats (trace w') = [(t, THeartbeat seconds)]
        /\ added w w' = EvLog DEBUG "Logon completed" [] :: cancel
                          ++ [EvLog DEBUG "Heartbeat started." [];
                              EvSpawn t (THeartbeat seconds)]
        /\ (cancel = [] \/ exists old, cancel = [EvKill old])
        /\ (forall old what, heartbeats (trace w) = [(old, what)] ->
              cancel = [EvKill old]))
  /\ (forall before after,
        trace w' = before ++ after ->
        (List.length (trace w) <= List.length before)%nat ->
        (List.length (heartbeats before) <= 1)%nat)
  /\ heartbeat_tracked w'.
Proof.
  intros Hbody Htracked. cbv zeta.
  rewrite (handle_logon_ok_shape msg seconds w Hbody). cbv zeta. simpl fst. simpl snd.
  set (completed := trace w ++ [EvLog DEBUG "Logon completed" []]).
  set (cancel := match _heartbeat_loop (self w) with
                 | Some old =>
                     if existsb (fun p => Nat.eqb (fst p) old) (running completed)
                     then [EvKill old] else []
                 | None => []
                 end).
  set (t := (List.length (completed ++ cancel) + 1)%nat).
  assert (Hcompleted : heartbeats completed = heartbeats (trace w)).
  { subst completed. rewrite heartbeats_snoc. reflexivity. }
  assert (Hshape : cancel = [] \/ exists old, cancel = [EvKill old]).
  { subst cancel. destruct (_heartbeat_loop (self w)) as [old|]; [|auto].
    destruct (existsb _ _); [right; eexists; reflexivity | auto]. }
  assert (Hold : forall old what, heartbeats (trace w) = [(old, what)] ->
                                  cancel = [EvKill old]).
  { intros old what Hone. unfold heartbeat_tracked in Htracked.
    rewrite Hone in Htracked. subst cancel. rewrite Htracked.
    rewrite (heartbeat_is_running completed old what); [reflexivity|].
    rewrite Hcompleted, Hone. left. reflexivity. }
  assert (Hcancelled : heartbeats (completed ++ cancel) = []).
  { destruct (heartbeats (trace w)) as [|[old what] [|second others]] eqn:Hhb.
    - destruct Hshape as [-> | [old ->]].
      + rewrite app_nil_r. exact Hcompleted.
      + rewrite heartbeats_snoc, Hcompleted. reflexivity.
    - rewrite (Hold old what eq_refl), heartbeats_snoc, Hcompleted.
      simpl. rewrite Nat.eqb_refl. reflexivity.
    - unfold heartbeat_tracked in Htracked. rewrite Hhb in Htracked.
      contradiction. }
  assert (Hfinal : heartbeats (completed ++ cancel
                                 ++ [EvLog DEBUG "Heartbeat started." [];
                                     EvSpawn t (THeartbeat seconds)])
                   = [(t, THeartbeat seconds)]).
  { change [EvLog DEBUG "Heartbeat started." []; EvSpawn t (THeartbeat seconds)]
      with ([EvLog DEBUG "Heartbeat started." []] ++ [EvSpawn t (THeartbeat seconds)]).
    rewrite !app_assoc, heartbeats_snoc, heartbeats_snoc.
    rewrite Hcancelled. reflexivity. }
  split; [reflexivity|]. split; [reflexivity|]. split; [reflexivity|].
  split; [|split].
  - exists t, cancel.
    split; [reflexivity|]. split; [exact Hfinal|].
    split; [|split; [exact Hshape | exact Hold]].
    unfold added. simpl trace. subst completed.
    rewrite <- app_assoc, skipn_app, skipn_all, Nat.sub_diag. reflexivity.
  - intros before after Hsplit Hlen. simpl trace in Hsplit.
    subst completed. rewrite <- app_assoc in Hsplit.
    destruct (extension_split _ _ _ _ Hsplit Hlen) as [d1 [-> Hd]].
    assert (Hbase : (List.length (heartbeats (trace w)) <= 1)%nat).
    { unfold heartbeat_tracked in Htracked.
      destruct (heartbeats (trace w)) as [|[old what] [|second others]];
        simpl; try lia; contradiction. }
    assert (Hlog : heartbeats (trace w ++ [EvLog DEBUG "Logon completed" []])
                   = heartbeats (trace w)) by (rewrite heartbeats_snoc; reflexivity).
    destruct d1 as [|e1 d1]; [rewrite app_nil_r; exact Hbase|].
    simpl in Hd. injection Hd as <- Hd.
    destruct d1 as [|e2 d1]; [rewrite Hlog; exact Hbase|].
    change (trace w ++ EvLog DEBUG "Logon completed" [] :: e2 :: d1)
      with (trace w ++ [EvLog DEBUG "Logon completed" []] ++ e2 :: d1).
    rewrite app_assoc.
    fold (trace w ++ [EvLog DEBUG "Logon completed" []]) in Hcancelled.
    set (completed := trace w ++ [EvLog DEBUG "Logon completed" []]) in *.
    destruct Hshape as [Hc | [old Hc]]; rewrite Hc in Hd, Hcancelled; simpl in Hd.
    + rewrite app_nil_r in Hcancelled.
      injection Hd as <- Hd.
      destruct d1 as [|e3 d1].
      * rewrite heartbeats_snoc, Hcancelled. simpl. lia.
      * injection Hd as <- Hd. destruct d1; [|discriminate Hd].
        change [EvLog DEBUG "Heartbeat started." []; EvSpawn t (THeartbeat seconds)]
          with ([EvLog DEBUG "Heartbeat started." []] ++ [EvSpawn t (THeartbeat seconds)]).
        rewrite app_assoc, heartbeats_snoc, heartbeats_snoc, Hcancelled.
        simpl. lia.
    + injection Hd as <- Hd.
      destruct d1 as [|e3 d1]; [rewrite Hcancelled; simpl; lia|].
      injection Hd as <- Hd.
      change (completed ++ EvKill old :: EvLog DEBUG "Heartbeat started." [] :: d1)
        with (completed ++ [EvKill old] ++ [EvLog DEBUG "Heartbeat started." []] ++ d1).
      rewrite !app_assoc.
      destruct d1 as [|e4 d1].
      * rewrite app_nil_r, heartbeats_snoc, Hcancelled. simpl. lia.
      * injection Hd as <- Hd. destruct d1; [|discriminate Hd].
        rewrite heartbeats_snoc, heartbeats_snoc, Hcancelled. simpl. lia.
  - unfold heartbeat_tracked. simpl trace. rewrite Hfinal. reflexivity.
Qed.

End Claims.

(* ===================================================================== *)
(** ** The theorems at concrete inputs                                    *)
(* ===================================================================== *)

(** Against C1 as stated: a connected client receives an encrypt-request
    cut short after its identifier.  The type is known and the body fails
    to load, yet nothing is logged at fatal level and the loader's
    exception is what leaves the parse step.  And a client that is not
    connected logs nothing for an envelope it cannot load. *)
Lemma parse_failure_counterexample :
  (connected (self Demo.online) = true
   /\ unpack_u32 Demo.truncated_request = Some 1303
   /\ @EMsg_call Demo.collab (clear_proto_bit 1303) = Some ChannelEncryptRequest
   /\ @Msg_load Demo.collab ChannelEncryptRequest Demo.truncated_request false
        = LoadFailed "unpack requires a string argument of length 8"
   /\ ~ (fatal_logged
           (added Demo.online
              (snd (@_parse_message Demo.collab Demo.truncated_request Demo.online)))
           = true
         /\ emitted
              (added Demo.online
                 (snd (@_parse_message Demo.collab Demo.truncated_request Demo.online)))
            = []
         /\ fst (@_parse_message Demo.collab Demo.truncated_request Demo.online)
            <> Raise (CodecException "unpack requires a string argument of length 8")))
  /\ (unpack_u32 Demo.truncated_other = Some 5000
      /\ @EMsg_call Demo.collab (clear_proto_bit 5000) = Some (EMsgOther 5000)
      /\ @Msg_load Demo.collab (EMsgOther 5000) Demo.truncated_other true
           = LoadFailed "truncated message"
      /\ fatal_logged
           (added Demo.fresh
              (snd (@_parse_message Demo.collab Demo.truncated_other Demo.fresh)))
         = false).
Proof.
  split.
  - repeat split; try reflexivity.
    intros [Hlogged _]. vm_compute in Hlogged. discriminate Hlogged.
  - repeat split; reflexivity.
Qed.

Lemma parse_failure_logged_not_dispatched_witness :
  connected (self Demo.online) = true
  /\ fatal_logged
       (added Demo.online
          (snd (@_parse_message Demo.collab Demo.truncated_other Demo.online)))
     = true
  /\ emitted
       (added Demo.online
          (snd (@_parse_message Demo.collab Demo.truncated_other Demo.online)))
     = []
  /\ fst (@_parse_message Demo.collab Demo.truncated_other Demo.online)
     <> Raise (CodecException "truncated message").
Proof.
  split; [reflexivity|].
  apply (@parse_failure_logged_not_dispatched Demo.collab
           Demo.truncated_other 5000 (EMsgOther 5000) "truncated message"
           Demo.online); reflexivity.
Defined.




Lemma logon_retry_reconnects_witness :
  spawned TConnect
    (added Demo.logged_on
       (snd (_handle_logon (Demo.logon_response TryAnotherCM) Demo.logged_on)))
    = [List.length (trace Demo.logged_on)]
  /\ spawned_heartbeats
       (added Demo.logged_on
          (snd (_handle_logon (Demo.logon_response TryAnotherCM) Demo.logged_on)))
     = [].
Proof.
  destruct (logon_retry_reconnects (Demo.logon_response TryAnotherCM)
              TryAnotherCM 9 Demo.logged_on eq_refl (or_introl eq_refl))
    as (_ & _ & _ & Hconnect & Hheartbeat & _).
  split; [exact Hconnect | exact Hheartbeat].
Defined.

Lemma logon_success_single_heartbeat_witness :
  heartbeat_tracked Demo.logged_on
  /\ heartbeat_tracked (snd (_handle_logon (Demo.logon_response OK) Demo.logged_on))
  /\ steam_id (self (snd (_handle_logon (Demo.logon_response OK) Demo.logged_on)))
     = Some (SteamID 76561197960265729).
Proof.
  assert (Htracked : heartbeat_tracked Demo.logged_on) by reflexivity.
  destruct (logon_success_single_heartbeat (Demo.logon_response OK) 9
              Demo.logged_on eq_refl Htracked)
    as (_ & Hid & _ & _ & _ & Hafter).
  split; [exact Htracked|]. split; [exact Hafter | exact Hid].
Defined.

Lemma encrypt_request_rejected_witness :
  sent (added Demo.online
          (snd (@_handle_encrypt_request Demo.collab
                  (Demo.encrypt_request 2 [x05]) Demo.online)))
    = []
  /\ List.length
       (spawned TDisconnect
          (added Demo.online
             (snd (@_handle_encrypt_request Demo.collab
                     (Demo.encrypt_request 2 [x05]) Demo.online))))
     = 1%nat.
Proof.
  assert (Hbad : 2 <> 1 \/ Public <> Public) by (left; discriminate).
  destruct (@encrypt_request_rejected Demo.collab (Demo.encrypt_request 2 [x05])
              2 Public [x05] Demo.online eq_refl Hbad)
    as (_ & _ & _ & Hspawn & Hsent).
  split; [exact Hsent | exact Hspawn].
Defined.

(** C7 at its failing inputs: [disconnect()] on a client that was only
    constructed, and on one inside [connect] between [self.connected =
    True] and the spawn of the receive loop.  Both calls stop with the
    attribute error; "disconnected" is not emitted and, in the second,
    [connected] stays set. *)
Lemma disconnect_not_reset_without_recv_loop :
  fst (disconnect false Demo.fresh)
    = Raise (AttributeError "'NoneType' object has no attribute 'kill'")
  /\ emitted (added Demo.fresh (snd (disconnect false Demo.fresh))) = []
  /\ fst (disconnect false Demo.connecting)
     = Raise (AttributeError "'NoneType' object has no attribute 'kill'")
  /\ connected (self (snd (disconnect false Demo.connecting))) = true
  /\ emitted (added Demo.connecting (snd (disconnect false Demo.connecting))) = [].
Proof. repeat split; reflexivity. Qed.

Lemma recv_integrity_failure_witness :
  fst (@_recv_messages Demo.collab [Got Demo.forged_frame] Demo.secured) = Ok Returned
  /\ emitted (added Demo.secured
                (snd (@_recv_messages Demo.collab [Got Demo.forged_frame] Demo.secured)))
     = [].
Proof.
  destruct (@recv_integrity_failure Demo.collab (repeat x11 32) (repeat x11 16)
              Demo.forged_frame [] Demo.secured
              eq_refl ltac:(discriminate) eq_refl ltac:(discriminate) eq_refl)
    as (Hret & _ & _ & _ & Hemit).
  split; [exact Hret | exact Hemit].
Defined.

(** Against C9 as stated: an uncompressed Multi body packs three
    sub-envelopes, the second of them empty.  The first is parsed and
    dispatched, the parse step raises [struct.error] on the second, and
    the third is never parsed: the run is that over the first two. *)
Lemma multi_empty_sub_envelope_counterexample :
  body (Demo.multi_with_body (pack_multi [Demo.sub1; []; Demo.sub2]))
    = BodyMulti 0 (pack_multi [Demo.sub1; []; Demo.sub2])
  /\ Forall (fun s => Z.of_nat (List.length s) < 2 ^ 32) [Demo.sub1; []; Demo.sub2]
  /\ fst (@_handle_multi Demo.collab
            (Demo.multi_with_body (pack_multi [Demo.sub1; []; Demo.sub2]))
            Demo.online)
     = Raise StructError
  /\ @_handle_multi Demo.collab
       (Demo.multi_with_body (pack_multi [Demo.sub1; []; Demo.sub2])) Demo.online
     = (logger_debug "Unpacking CMsgMulti" [];;
        for_each (@_parse_message Demo.collab) [Demo.sub1; []]) Demo.online
  /\ List.length
       (emitted
          (added Demo.online
             (snd (@_handle_multi Demo.collab
                     (Demo.multi_with_body (pack_multi [Demo.sub1; []; Demo.sub2]))
                     Demo.online))))
     = 1%nat.
Proof.
  split; [reflexivity|]. split; [repeat constructor|].
  split; [vm_compute; reflexivity|].
  split; vm_compute; reflexivity.
Qed.

Lemma multi_uncompressed_in_order_witness :
  @_handle_multi Demo.collab Demo.multi_plain Demo.online =
    (logger_debug "Unpacking CMsgMulti" [];;
     for_each (@_parse_message Demo.collab) [Demo.sub1; Demo.sub2]) Demo.online
  /\ @_handle_multi Demo.collab
       (Demo.multi_with_body (pack_multi [Demo.sub1; []; Demo.sub2])) Demo.online
     = (Raise StructError,
        snd (@_parse_message Demo.collab Demo.sub1
               (mkWorld (self Demo.online)
                  (trace Demo.online ++ [EvLog DEBUG "Unpacking CMsgMulti" []])))).
Proof.
  assert (Hsmall : Forall (fun s => Z.of_nat (List.length s) < 2 ^ 32)
                     [Demo.sub1; Demo.sub2]) by (repeat constructor).
  assert (Hsmall3 : Forall (fun s => Z.of_nat (List.length s) < 2 ^ 32)
                      [Demo.sub1; []; Demo.sub2]) by (repeat constructor).
  destruct (@multi_uncompressed_in_order Demo.collab Demo.multi_plain
              [Demo.sub1; Demo.sub2] Demo.online eq_refl Hsmall)
    as (Hrun & _).
  destruct (@multi_uncompressed_in_order Demo.collab
              (Demo.multi_with_body (pack_multi [Demo.sub1; []; Demo.sub2]))
              [Demo.sub1; []; Demo.sub2] Demo.online eq_refl Hsmall3)
    as (_ & _ & _ & Hcut).
  split; [exact Hrun|].
  set (unpacking := mkWorld (self Demo.online)
                      (trace Demo.online ++ [EvLog DEBUG "Unpacking CMsgMulti" []])).
  assert (Hfirst : for_each (@_parse_message Demo.collab) [Demo.sub1] unpacking
                   = (Ok tt, snd (@_parse_message Demo.collab Demo.sub1 unpacking)))
    by (vm_compute; reflexivity).
  assert (Hempty : @_parse_message Demo.collab []
                     (snd (@_parse_message Demo.collab Demo.sub1 unpacking))
                   = (Raise StructError,
                      snd (@_parse_message Demo.collab Demo.sub1 unpacking)))
    by (vm_compute; reflexivity).
  exact (Hcut [Demo.sub1] [] [Demo.sub2] StructError _ _ eq_refl Hfirst Hempty).
Defined.

Lemma disconnect_without_recv_loop_witness :
  _recv_loop (self Demo.fresh) = None
  /\ fst (disconnect true Demo.fresh)
     = Raise (AttributeError "'NoneType' object has no attribute 'kill'").
Proof.
  destruct (disconnect_without_recv_loop true Demo.fresh eq_refl)
    as (Hraise & _).
  split; [reflexivity | exact Hraise].
Defined.

(* ===================================================================== *)
(** ** Further properties of the client                                   *)
(* ===================================================================== *)

Section Client.

Context {collab : Collaborators}.

(** *** Construction and connection *)

(** X1: [__init__] accepts TCP only.  Any other protocol raises
    [ValueError] after the attributes were initialised and before any
    handler is registered; with TCP the three handlers are registered, in
    the order encrypt-request, Multi, logon-response. *)
Theorem init_only_tcp (protocol : Z) (w : World) :
  let w' := snd (__init__ protocol w) in
  self w' = mkClient false false None None None None None None
  /\ (if protocol =? TCP
      then fst (__init__ protocol w) = Ok tt
           /\ registered (added w w')
              = [(KMsg ChannelEncryptRequest, "_handle_encrypt_request");
                 (KMsg Multi, "_handle_multi");
                 (KMsg ClientLogOnResponse, "_handle_logon")]
      else fst (__init__ protocol w) = Raise (ValueError "Only TCP is supported")
           /\ trace w' = trace w).
Proof.
  cbv zeta. unfold __init__. run.
  destruct (protocol =? TCP); simpl.
  - split; [reflexivity|]. split; [reflexivity|].
    rewrite <- !app_assoc. simpl. rewrite added_app. reflexivity.
  - repeat split; reflexivity.
Qed.

(** Attempts that fail are logged and retried at once. *)
Lemma connect_loop_failed (fails rest : list (nat * bool)) (w : World) :
  Forall (fun a => snd a = false) fails ->
  connect_loop (fails ++ rest) w =
    connect_loop rest (mkWorld (self w) (trace w ++ flat_map failed_attempt fails)).
Proof.
  intros Hfails. revert w.
  induction Hfails as [|[i up] fails Hup _ IH]; intros w.
  - simpl. rewrite app_nil_r. destruct w; reflexivity.
  - simpl in Hup. subst up. simpl app. cbn [connect_loop]. run.
    rewrite IH. simpl. f_equal. f_equal.
    unfold failed_attempt at 2. simpl. rewrite <- !app_assoc. reflexivity.
Qed.

Lemma connect_attempts_app (a b : list event) :
  connect_attempts (a ++ b) = connect_attempts a ++ connect_attempts b.
Proof. apply flat_map_app. Qed.

Lemma emitted_app (a b : list event) :
  emitted (a ++ b) = emitted a ++ emitted b.
Proof. apply flat_map_app. Qed.

Lemma sent_app (a b : list event) : sent (a ++ b) = sent a ++ sent b.
Proof. apply flat_map_app. Qed.

Lemma failed_attempts_observed (fails : list (nat * bool)) :
  List.length (connect_attempts (flat_map failed_attempt fails)) = List.length fails
  /\ emitted (flat_map failed_attempt fails) = []
  /\ spawned TRecvMessages (flat_map failed_attempt fails) = [].
Proof.
  induction fails as [|a fails (IHc & IHe & IHs)]; [repeat split; reflexivity|].
  change (flat_map failed_attempt (a :: fails))
    with (failed_attempt a ++ flat_map failed_attempt fails).
  rewrite connect_attempts_app, emitted_app, spawned_app, length_app.
  rewrite IHc, IHe, IHs. repeat split; reflexivity.
Qed.

(** The outcome of [connect] on a schedule whose first successful
    attempt comes after [fails]. *)
Lemma connect_shape (fails rest : list (nat * bool)) (i : nat) (w : World) :
  Forall (fun a => snd a = false) fails ->
  let t := (List.length (trace w) + 1
            + List.length (flat_map failed_attempt fails) + 3)%nat in
  connect (fails ++ (i, true) :: rest) w =
    (Ok Returned,
     mkWorld (set_recv_loop (Some t) (set_connected true (self w)))
       (trace w ++ EvLog DEBUG "Connect initiated." []
          :: flat_map failed_attempt fails
          ++ [EvTransportConnect
                (nth (i mod List.length server_list) server_list ("", ""));
              EvLog DEBUG "Emit event: %s" [VKey (KName "connected")];
              EvEmit (Some (KName "connected")) [];
              EvSpawn t TRecvMessages])).
Proof.
  intros Hfails. cbv zeta. unfold connect.
  unfold bind at 1. unfold logger_debug at 1. unfold tell at 1.
  rewrite (connect_loop_failed fails ((i, true) :: rest) _ Hfails).
  cbn [connect_loop]. run. trace_eq.
Qed.

(** X2: [connect] keeps trying until an attempt finds the transport
    connected.  It then sets [connected], emits "connected" exactly once,
    spawns exactly one receive greenlet and stores its handle; every
    attempt before it was a failed one, and the schedule behind it is
    not consumed. *)
Theorem connect_retries_until_up (fails rest : list (nat * bool)) (i : nat) (w : World) :
  Forall (fun a => snd a = false) fails ->
  let w' := snd (connect (fails ++ (i, true) :: rest) w) in
  fst (connect (fails ++ (i, true) :: rest) w) = Ok Returned
  /\ (exists t,
        self w' = set_recv_loop (Some t) (set_connected true (self w))
        /\ spawned TRecvMessages (added w w') = [t]
        /\ In (t, TRecvMessages) (running (trace w')))
  /\ emitted (added w w') = [(Some (KName "connected"), [])]
  /\ List.length (connect_attempts (added w w')) = S (List.length fails).
Proof.
  intros Hfails. cbv zeta.
  rewrite (connect_shape fails rest i w Hfails). cbv zeta.
  cbn [fst snd self trace]. rewrite added_app.
  destruct (failed_attempts_observed fails) as (Hc & He & Hs).
  set (tried := flat_map failed_attempt fails) in *.
  set (t := (List.length (trace w) + 1 + List.length tried + 3)%nat).
  split; [reflexivity|]. split; [|split].
  - exists t. split; [reflexivity|]. split.
    + change (spawned TRecvMessages (EvLog DEBUG "Connect initiated." [] :: ?l))
        with (spawned TRecvMessages l).
      rewrite spawned_app, Hs. simpl.
      destruct (task_eq_dec TRecvMessages TRecvMessages); [reflexivity | congruence].
    + match goal with
      | |- In _ (running (?l1 ++ ?a :: ?l2 ++ [?e1; ?e2; ?e3; ?e4])) =>
          replace (l1 ++ a :: l2 ++ [e1; e2; e3; e4])
            with ((l1 ++ a :: l2 ++ [e1; e2; e3]) ++ [e4])
            by (rewrite <- app_assoc; simpl; rewrite <- app_assoc; reflexivity)
      end.
      rewrite running_snoc. cbn [running_step].
      apply in_or_app. right. left. reflexivity.
  - change (emitted (EvLog DEBUG "Connect initiated." [] :: ?l)) with (emitted l).
    rewrite emitted_app, He. reflexivity.
  - change (connect_attempts (EvLog DEBUG "Connect initiated." [] :: ?l))
      with (connect_attempts l).
    rewrite connect_attempts_app, length_app, Hc. simpl. lia.
Qed.

(** X3: while every attempt fails, [connect] is still running: it has
    asked the transport once per attempt, and it has neither changed an
    attribute, nor emitted a notification, nor spawned a greenlet. *)
Theorem connect_all_failed_still_running (fails : list (nat * bool)) (w : World) :
  Forall (fun a => snd a = false) fails ->
  let w' := snd (connect fails w) in
  fst (connect fails w) = Ok Running
  /\ self w' = self w
  /\ List.length (connect_attempts (added w w')) = List.length fails
  /\ emitted (added w w') = []
  /\ spawned TRecvMessages (added w w') = [].
Proof.
  intros Hfails. cbv zeta.
  assert (E : connect fails w =
              (Ok Running,
               mkWorld (self w)
                 (trace w ++ EvLog DEBUG "Connect initiated." []
                    :: flat_map failed_attempt fails))).
  { unfold connect.
    unfold bind at 1. unfold logger_debug at 1. unfold tell at 1.
    rewrite <- (app_nil_r fails) at 1.
    rewrite (connect_loop_failed fails [] _ Hfails).
    cbn [connect_loop]. unfold ret. cbn [self trace].
    rewrite <- app_assoc. reflexivity. }
  rewrite E. cbn [fst snd self trace]. rewrite added_app.
  destruct (failed_attempts_observed fails) as (Hc & He & Hs).
  repeat split; assumption.
Qed.

(** *** Disconnect *)

Lemma not_running_after_kill (tr : list event) (t : tid) (what : task) :
  ~ In (t, what) (running (tr ++ [EvKill t])).
Proof.
  rewrite running_snoc. simpl. intros Hin.
  apply filter_In in Hin as [_ Hneq]. simpl in Hneq.
  rewrite Nat.eqb_refl in Hneq. discriminate.
Qed.

(** X4: with a receive greenlet in [_recv_loop], [disconnect] runs to
    the end: the transport is torn down, the receive greenlet is killed,
    every session attribute is back at its initial value and
    "disconnected" is the one notification emitted.  [connect] is spawned
    exactly when [reconnect] is set, and when the heartbeat handle tracks
    the running heartbeat no heartbeat greenlet is left running. *)
Theorem disconnect_completes (reconnect : bool) (t : tid) (w : World) :
  _recv_loop (self w) = Some t ->
  let w' := snd (disconnect reconnect w) in
  fst (disconnect reconnect w) = Ok tt
  /\ self w' = reset (self w)
  /\ In EvTransportDisconnect (added w w')
  /\ emitted (added w w') = [(Some (KName "disconnected"), [])]
  /\ spawned TConnect (added w w')
     = (if reconnect then [List.length (trace w)] else [])
  /\ (forall what, ~ In (t, what) (running (trace w')))
  /\ (heartbeat_tracked w -> heartbeats (trace w') = []).
Proof.
  intros Hrecv. cbv zeta. rewrite disconnect_shape, Hrecv.
  cbn [fst snd self trace]. rewrite added_app.
  split; [reflexivity|]. split; [reflexivity|].
  split; [apply in_or_app; left; apply teardown_transport|].
  split; [rewrite emitted_app, teardown_emitted; reflexivity|].
  split; [rewrite spawned_app, teardown_connects, app_nil_r; reflexivity|].
  change [EvKill t; EvLog DEBUG "Emit event: %s" [VKey (KName "disconnected")];
          EvEmit (Some (KName "disconnected")) []]
    with ([EvKill t] ++ [EvLog DEBUG "Emit event: %s" [VKey (KName "disconnected")]]
            ++ [EvEmit (Some (KName "disconnected")) []]).
  rewrite !app_assoc.
  split.
  - intros what. rewrite running_snoc, running_snoc. cbn [running_step].
    apply not_running_after_kill.
  - intros Htracked. rewrite !heartbeats_snoc.
    rewrite (teardown_stops_heartbeats reconnect w Htracked). reflexivity.
Qed.

(** *** Sending *)

Lemma send_message_shape (message : Message) (w : World) :
  send_message (VMsg message) w =
    (Ok tt,
     mkWorld (self w)
       (trace w ++ [outgoing_note (self w) message;
                    EvPutMessage (wire (self w) message)])).
Proof.
  unfold send_message, wire, stamped, outgoing_note. run.
  destruct (verbose_debug (self w)); simpl; rewrite <- app_assoc; reflexivity.
Qed.

Lemma outgoing_note_quiet (c : CMClient) (m : Message) :
  sent [outgoing_note c m] = [] /\ emitted [outgoing_note c m] = [].
Proof. unfold outgoing_note. destruct (verbose_debug c); split; reflexivity. Qed.

Lemma send_message_sent (message : Message) (w : World) :
  sent (added w (snd (send_message (VMsg message) w))) = [wire (self w) message].
Proof.
  rewrite send_message_shape. cbn [snd]. rewrite added_app.
  destruct (outgoing_note_quiet (self w) message) as [Hs _].
  change [outgoing_note (self w) message; EvPutMessage (wire (self w) message)]
    with ([outgoing_note (self w) message] ++ [EvPutMessage (wire (self w) message)]).
  rewrite sent_app, Hs. reflexivity.
Qed.

(** X5: [send_message] refuses an argument that is neither a [Msg] nor
    a [MsgProto] with [ValueError], before anything is logged or sent.
    For a message, with serialisation and the ciphers returning their
    result, it returns, changes no attribute and puts exactly one frame
    on the transport: the serialised message, stamped with the identity
    held, in the clear while no key is held, under [symmetric_encrypt]
    with a key alone and under [symmetric_encrypt_HMAC] with a key and a
    secondary secret. *)
Theorem send_message_frame (argument : pyval) (w : World) :
  let w' := snd (send_message argument w) in
  match argument with
  | VMsg message =>
      fst (send_message argument w) = Ok tt
      /\ self w' = self w
      /\ sent (added w w') = [wire (self w) message]
      /\ emitted (added w w') = []
      /\ (held (key (self w)) = false ->
          wire (self w) message = serialize (stamped (self w) message))
      /\ (held (key (self w)) = true -> held (hmac_secret (self w)) = false ->
          wire (self w) message
          = symmetric_encrypt (serialize (stamped (self w) message))
              (the_bytes (key (self w))))
      /\ (held (key (self w)) = true -> held (hmac_secret (self w)) = true ->
          wire (self w) message
          = symmetric_encrypt_HMAC (serialize (stamped (self w) message))
              (the_bytes (key (self w))) (the_bytes (hmac_secret (self w))))
  | _ =>
      send_message argument w
      = (Raise (ValueError "Expected Msg or MsgProto, got %s"), w)
  end.
Proof.
  cbv zeta. destruct argument as [message| | | |]; try reflexivity.
  rewrite send_message_shape.
  cbn [fst snd self trace]. rewrite added_app.
  destruct (outgoing_note_quiet (self w) message) as [Hs He].
  split; [reflexivity|]. split; [reflexivity|].
  split.
  { change [outgoing_note (self w) message; EvPutMessage (wire (self w) message)]
      with ([outgoing_note (self w) message] ++ [EvPutMessage (wire (self w) message)]).
    rewrite sent_app, Hs. reflexivity. }
  split.
  { change [outgoing_note (self w) message; EvPutMessage (wire (self w) message)]
      with ([outgoing_note (self w) message] ++ [EvPutMessage (wire (self w) message)]).
    rewrite emitted_app, He. reflexivity. }
  unfold wire.
  split; [intros ->; reflexivity|].
  split; intros -> ->; reflexivity.
Qed.

(** X6: after a disconnect that ran to the end, a message is sent in the
    clear and without identity, whatever key and identifiers the session
    held before: the next exchange needs a new handshake and logon. *)
Theorem send_after_disconnect_is_plain (reconnect : bool) (t : tid)
    (message : Message) (w : World) :
  _recv_loop (self w) = Some t ->
  let w1 := snd (disconnect reconnect w) in
  sent (added w1 (snd (send_message (VMsg message) w1))) = [serialize message].
Proof.
  intros Hrecv. cbv zeta. rewrite send_message_sent.
  rewrite disconnect_shape, Hrecv. reflexivity.
Qed.

(** *** Heartbeat *)



(** *** Parsing and the receive loop *)

Lemma unpack_u32_short (data : bytes) :
  (List.length data < 4)%nat <-> unpack_u32 data = None.
Proof.
  destruct data as [|b0 [|b1 [|b2 [|b3 tail]]]]; unfold unpack_u32; simpl;
    split; intros H; try reflexivity; try lia; discriminate H.
Qed.

(** X8: while connected, an envelope of a known type whose body loads
    is logged at debug level and then handed to [emit], once, under its
    type and with the loaded message as the only argument; that call is
    the last thing the parse step does, so what the parse step returns
    or raises is what [emit] does.  The three channel-encryption types
    are loaded as plain [Msg] whatever the proto bit says; every other
    type as [MsgProto] when the proto bit is set and as extended [Msg]
    otherwise. *)
Theorem parse_message_dispatches (message : bytes) (emsg_id : Z) (emsg : EMsg)
    (m : Message) (w : World) :
  connected (self w) = true ->
  unpack_u32 message = Some emsg_id ->
  EMsg_call (clear_proto_bit emsg_id) = Some emsg ->
  (if is_channel_encrypt emsg then Msg_load emsg message false
   else if is_proto emsg_id then MsgProto_load emsg message
   else Msg_load emsg message true) = Loaded m ->
  _parse_message message w =
    emit (Some (KMsg emsg)) [VMsg m]
      (mkWorld (self w) (trace w ++ [incoming_note (self w) m])).
Proof.
  intros Hc Hid Hemsg Hload.
  unfold _parse_message, incoming_note.
  unfold bind at 1. unfold get at 1. rewrite Hc. cbn [negb].
  unfold bind at 1. rewrite Hid. unfold ret at 1.
  unfold bind at 1. rewrite Hemsg. unfold ret at 1.
  unfold bind at 1.
  assert (Hmsg : forall v,
            (if is_channel_encrypt emsg
             then match Msg_load emsg message false with
                  | Loaded m0 => ret (Some m0)
                  | LoadFailed what => raise (CodecException what)
                  end
             else try_except
                    (if is_proto emsg_id
                     then match MsgProto_load emsg message with
                          | Loaded m0 => ret (Some m0)
                          | LoadFailed what => raise (CodecException what)
                          end
                     else match Msg_load emsg message true with
                          | Loaded m0 => ret (Some m0)
                          | LoadFailed what => raise (CodecException what)
                          end)
                    is_Exception
                    (fun e =>
                       logger_fatal "Failed to deserialize message: %s (is_proto: %s)"
                                    [VEMsg emsg; VBool (is_proto emsg_id)];;
                       logger_exception e;;
                       ret None)) v = (Ok (Some m), v)).
  { intros v. destruct (is_channel_encrypt emsg).
    - rewrite Hload. reflexivity.
    - unfold try_except. destruct (is_proto emsg_id); rewrite Hload; reflexivity. }
  rewrite Hmsg.
  unfold bind at 1. unfold get at 1.
  destruct (verbose_debug (self w)); reflexivity.
Qed.

(** X9: while connected, a frame shorter than four bytes leaves the
    parse step with [struct.error] and a frame whose identifier is not a
    member of [EMsg] leaves it with [ValueError]; in both cases nothing
    was logged or emitted. *)
Theorem parse_message_bad_header (message : bytes) (w : World) :
  connected (self w) = true ->
  ((List.length message < 4)%nat ->
     _parse_message message w = (Raise StructError, w))
  /\ (forall emsg_id,
        unpack_u32 message = Some emsg_id ->
        EMsg_call (clear_proto_bit emsg_id) = None ->
        _parse_message message w = (Raise (ValueError "is not a valid EMsg"), w)).
Proof.
  intros Hc. split.
  - intros Hshort. apply unpack_u32_short in Hshort.
    unfold _parse_message. run. rewrite Hc. simpl. rewrite Hshort. reflexivity.
  - intros emsg_id Hid Hunknown.
    unfold _parse_message. run. rewrite Hc. simpl. rewrite Hid. simpl.
    rewrite Hunknown. reflexivity.
Qed.

(** X10: the receive loop survives any number of empty polls while the
    transport is up; the first empty poll that finds the transport down
    spawns one disconnect and ends the loop, and what is queued behind it
    is not read. *)
Theorem recv_idle_until_transport_down (polls : nat) (rest : list inbound) (w : World) :
  _recv_messages (repeat (Empty true) polls ++ Empty false :: rest) w =
    (Ok Returned,
     mkWorld (self w) (trace w ++ [EvSpawn (List.length (trace w)) TDisconnect])).
Proof.
  induction polls as [|n IH]; [reflexivity|].
  cbn [repeat app _recv_messages negb]. exact IH.
Qed.


(** X12: a body that fails to load ends the receive loop.  While
    connected and without a key, a frame of a known type other than the
    channel-encryption types whose body does not load makes the loop
    leave with [UnboundLocalError] right after the fatal log; no
    disconnect is spawned and the frames behind it are not read. *)
Theorem recv_stops_on_load_failure (frame : bytes) (emsg_id : Z) (emsg : EMsg)
    (what : string) (rest : list inbound) (w : World) :
  held (key (self w)) = false ->
  connected (self w) = true ->
  unpack_u32 frame = Some emsg_id ->
  EMsg_call (clear_proto_bit emsg_id) = Some emsg ->
  is_channel_encrypt emsg = false ->
  (if is_proto emsg_id then MsgProto_load emsg frame
   else Msg_load emsg frame true) = LoadFailed what ->
  let w' := snd (_recv_messages (Got frame :: rest) w) in
  fst (_recv_messages (Got frame :: rest) w) = Raise (UnboundLocalError "msg")
  /\ self w' = self w
  /\ fatal_logged (added w w') = true
  /\ spawned TDisconnect (added w w') = []
  /\ emitted (added w w') = [].
Proof.
  intros Hk Hc Hid Hemsg Hhs Hload. cbv zeta.
  assert (E : _recv_messages (Got frame :: rest) w =
              (Raise (UnboundLocalError "msg"), snd (_parse_message frame w))).
  { cbn [_recv_messages]. unfold bind, get, ret. cbn [fst snd].
    rewrite Hk.
    rewrite (parse_message_load_failed frame emsg_id emsg what w) by assumption.
    reflexivity. }
  rewrite E.
  rewrite (parse_message_load_failed frame emsg_id emsg what w) by assumption.
  cbn [fst snd self trace]. rewrite added_app.
  repeat split; reflexivity.
Qed.

(** X13: what [send_message] puts on the transport is read back by a
    receive loop that holds the same key material.  When decryption
    undoes encryption, the loop hands the parse step exactly the
    serialised, stamped message. *)
Theorem send_recv_round_trip (message : Message) (sender w : World)
    (rest : list inbound) :
  (forall data k, symmetric_decrypt (symmetric_encrypt data k) k = data) ->
  (forall data k h, k <> [] -> h <> [] ->
     symmetric_decrypt_HMAC (symmetric_encrypt_HMAC data k h) k h = Some data) ->
  key (self w) = key (self sender) ->
  hmac_secret (self w) = hmac_secret (self sender) ->
  forall frame,
    sent (added sender (snd (send_message (VMsg message) sender))) = [frame] ->
    _recv_messages (Got frame :: rest) w =
      (_parse_message (serialize (stamped (self sender) message));;
       _recv_messages rest) w.
Proof.
  intros Hplain Hauth Hkey Hsecret frame Hsent.
  rewrite send_message_sent in Hsent. injection Hsent as <-.
  cbn [_recv_messages]. unfold bind, get, ret, try_except. cbn [fst snd].
  rewrite Hkey, Hsecret. unfold wire.
  destruct (key (self sender)) as [[|k0 k]|]; cbn [held bytes_bool the_bytes];
    try reflexivity.
  destruct (hmac_secret (self sender)) as [[|h0 h]|]; cbn [held bytes_bool the_bytes].
  - rewrite Hplain. reflexivity.
  - rewrite Hauth by discriminate. reflexivity.
  - rewrite Hplain. reflexivity.
Qed.

(** *** Handshake *)

(** A request that passes validation brings the handler to the wait
    with the response sent. *)
Lemma handshake_reaches_wait (msg : Message) (challenge : bytes) (w : World) :
  body msg = BodyEncryptRequest 1 Public challenge ->
  forall outcome w2,
    wait_event ChannelEncryptResult (awaiting_result challenge w) = (outcome, w2) ->
    _handle_encrypt_request msg w =
      match outcome with
      | Raise e => (Raise e, w2)
      | Ok answer =>
          (er <- body_eresult (body answer);;
           if negb (EResult_eqb er OK) then
             logger_debug "Failed to secure channel: %s" [VResult er];;
             _ <- gevent_spawn TDisconnect;;
             ret tt
           else
             logger_debug "Channel secured" [];;
             modify (set_key (Some (fst (generate_session_key challenge))));;
             (if bytes_bool challenge
              then modify (set_hmac_secret
                             (Some (firstn 16 (fst (generate_session_key challenge)))))
              else ret tt);;
             emit (Some (KName "channel_secured")) []) w2
      end.
Proof.
  intros Hbody outcome w2 Hwait.
  unfold _handle_encrypt_request. rewrite Hbody.
  unfold awaiting_result, encrypt_response in Hwait.
  unfold bind, logger_debug, tell in Hwait.
  rewrite send_message_returns in Hwait. simpl snd in Hwait.
  destruct (generate_session_key challenge) as [session_key resp_key] eqn:Hgen.
  simpl fst. simpl snd in Hwait.
  unfold bind, logger_debug, tell, try_except, body_protocolVersion,
    body_universe, body_challenge, ret.
  cbn -[send_message wait_event emit firstn set_body body_eresult].
  rewrite Hgen.
  change (set_body ?b (set_body _ ?m)) with (set_body b m).
  rewrite send_message_returns, Hwait.
  destruct outcome as [answer|e]; reflexivity.
Qed.

(** X14: an encrypt-result that does not report success makes the
    handler log the result and spawn one disconnect; the key and the
    secondary secret are not assigned and "channel_secured" is not
    emitted. *)
Theorem handshake_failure_aborts (msg : Message) (challenge : bytes)
    (answer : Message) (code : EResult) (w w2 : World) :
  body msg = BodyEncryptRequest 1 Public challenge ->
  wait_event ChannelEncryptResult (awaiting_result challenge w) = (Ok answer, w2) ->
  body answer = BodyEncryptResult code ->
  code <> OK ->
  let w' := snd (_handle_encrypt_request msg w) in
  fst (_handle_encrypt_request msg w) = Ok tt
  /\ self w' = self w2
  /\ trace w' = trace w2 ++ [EvLog DEBUG "Failed to secure channel: %s" [VResult code];
                             EvSpawn (List.length (trace w2) + 1)%nat TDisconnect]
  /\ emitted (added w2 w') = []
  /\ List.length (spawned TDisconnect (added w2 w')) = 1%nat.
Proof.
  intros Hbody Hwait Hans Hcode. cbv zeta.
  rewrite (handshake_reaches_wait msg challenge w Hbody _ _ Hwait).
  rewrite Hans. run. unfold EResult_eqb.
  destruct (EResult_eq_dec code OK) as [|_]; [contradiction|]. simpl.
  assert (Htr : (trace w2 ++ [EvLog DEBUG "Failed to secure channel: %s" [VResult code]])
                  ++ [EvSpawn (List.length
                                 (trace w2 ++
                                  [EvLog DEBUG "Failed to secure channel: %s"
                                     [VResult code]])) TDisconnect]
                = trace w2 ++ [EvLog DEBUG "Failed to secure channel: %s" [VResult code];
                               EvSpawn (List.length (trace w2) + 1)%nat TDisconnect])
    by trace_eq.
  rewrite Htr, added_app.
  repeat split; reflexivity.
Qed.

(** X15: the response to a valid request carries the key material
    returned by [generate_session_key] and its CRC reduced to an unsigned
    32-bit value; it is the one frame sent before the handler waits, and
    sending it changes no attribute.  If the wait is left by an exception
    the handler is left by the same exception: no key is assigned. *)
Theorem handshake_response_sent (msg : Message) (challenge : bytes) (w : World) :
  body msg = BodyEncryptRequest 1 Public challenge ->
  let resp_key := snd (generate_session_key challenge) in
  let waiting := awaiting_result challenge w in
  body (encrypt_response challenge)
    = BodyEncryptResponse resp_key (crc32 resp_key mod 2 ^ 32)
  /\ 0 <= crc32 resp_key mod 2 ^ 32 < 2 ^ 32
  /\ sent (added w waiting) = [wire (self w) (encrypt_response challenge)]
  /\ self waiting = self w
  /\ (forall e w2,
        wait_event ChannelEncryptResult waiting = (Raise e, w2) ->
        _handle_encrypt_request msg w = (Raise e, w2)).
Proof.
  intros Hbody. cbv zeta.
  split.
  { unfold encrypt_response. cbn [set_body body]. f_equal.
    change 4294967295 with (Z.ones 32). apply Z.land_ones. lia. }
  split; [apply Z.mod_pos_bound; lia|].
  assert (E : awaiting_result challenge w =
              mkWorld (self w)
                (trace w ++ [EvLog DEBUG "Securing channel" [];
                             outgoing_note (self w) (encrypt_response challenge);
                             EvPutMessage (wire (self w) (encrypt_response challenge))])).
  { unfold awaiting_result. unfold bind, logger_debug, tell.
    rewrite send_message_shape. cbn [snd self trace].
    rewrite <- app_assoc. reflexivity. }
  split.
  { rewrite E, added_app.
    destruct (outgoing_note_quiet (self w) (encrypt_response challenge)) as [Hs _].
    change (sent (EvLog DEBUG "Securing channel" [] :: ?n :: ?l))
      with (sent ([n] ++ l)).
    rewrite sent_app, Hs. reflexivity. }
  split; [rewrite E; reflexivity|].
  intros e w2 Hwait.
  rewrite (handshake_reaches_wait msg challenge w Hbody _ _ Hwait). reflexivity.
Qed.

(** X16: once the handshake has succeeded on a non-empty challenge,
    [send_message] encrypts under the session key with the first 16 bytes
    of that key as the secondary secret. *)
Theorem handshake_then_send_authenticated (msg : Message) (challenge : bytes)
    (session_key resp_key : bytes) (answer : Message) (w w2 : World)
    (message : Message) :
  body msg = BodyEncryptRequest 1 Public challenge ->
  generate_session_key challenge = (session_key, resp_key) ->
  wait_event ChannelEncryptResult (awaiting_result challenge w) = (Ok answer, w2) ->
  body answer = BodyEncryptResult OK ->
  challenge <> [] ->
  session_key <> [] ->
  let w' := snd (_handle_encrypt_request msg w) in
  sent (added w' (snd (send_message (VMsg message) w')))
  = [symmetric_encrypt_HMAC (serialize (stamped (self w') message))
       session_key (firstn 16 session_key)].
Proof.
  intros Hbody Hgen Hwait Hans Hchallenge Hkey. cbv zeta.
  rewrite send_message_sent.
  rewrite (handshake_reaches_wait msg challenge w Hbody _ _ Hwait).
  rewrite Hans, Hgen.
  destruct challenge as [|c0 challenge]; [congruence|].
  destruct session_key as [|k0 session_key]; [congruence|].
  reflexivity.
Qed.

(** *** Multi *)

(** The loop on packed sub-envelopes followed by more bytes. *)
Lemma multi_loop_pack_then (parse : bytes -> M unit) (subs : list bytes)
    (tail : bytes) :
  Forall (fun s => Z.of_nat (List.length s) < 2 ^ 32) subs ->
  forall w,
    multi_loop parse (pack_multi subs ++ tail) w =
      (for_each parse subs;; multi_loop parse tail) w.
Proof.
  induction 1 as [|s rest Hs Hrest IH]; intros w.
  - reflexivity.
  - change (pack_multi (s :: rest)) with (frame s ++ pack_multi rest).
    unfold frame. rewrite <- !app_assoc.
    rewrite multi_loop_step by (unfold pack_u32; simpl; discriminate).
    rewrite unpack_pack_u32 by lia.
    rewrite Nat2Z.id.
    assert (Hslice : slice 4 (List.length s)
                       (pack_u32 (Z.of_nat (List.length s))
                          ++ s ++ pack_multi rest ++ tail) = s).
    { unfold slice, pack_u32. simpl skipn.
      rewrite firstn_app, Nat.sub_diag, firstn_all. simpl. apply app_nil_r. }
    assert (Hrest' : slice_from (4 + List.length s)
                       (pack_u32 (Z.of_nat (List.length s))
                          ++ s ++ pack_multi rest ++ tail)
                     = pack_multi rest ++ tail).
    { unfold slice_from, pack_u32. simpl skipn.
      rewrite skipn_app, Nat.sub_diag, skipn_all. reflexivity. }
    rewrite Hslice, Hrest'. cbn [for_each]. unfold bind.
    destruct (parse s w) as [[[]|e] w']; [|reflexivity].
    rewrite IH. reflexivity.
Qed.

Lemma handle_multi_plain (msg : Message) (data : bytes) (w : World) :
  body msg = BodyMulti 0 data ->
  _handle_multi msg w =
    (logger_debug "Unpacking CMsgMulti" [];; multi_loop _parse_message data) w.
Proof.
  intros Hbody. unfold _handle_multi. rewrite Hbody. run. reflexivity.
Qed.

(** X17: one to three stray bytes behind the last sub-envelope of an
    uncompressed Multi body are not ignored: the sub-envelopes in front of
    them are parsed in order and the handler is then left by
    [struct.error]. *)
Theorem multi_stray_tail (msg : Message) (subs : list bytes) (stray : bytes)
    (w : World) :
  body msg = BodyMulti 0 (pack_multi subs ++ stray) ->
  Forall (fun s => Z.of_nat (List.length s) < 2 ^ 32) subs ->
  (0 < List.length stray < 4)%nat ->
  _handle_multi msg w =
    (logger_debug "Unpacking CMsgMulti" [];;
     for_each _parse_message subs;;
     raise StructError) w.
Proof.
  intros Hbody Hsubs Hstray.
  rewrite (handle_multi_plain msg _ w Hbody).
  unfold bind at 1 3. unfold logger_debug, tell.
  rewrite multi_loop_pack_then by exact Hsubs.
  unfold bind.
  destruct (for_each _parse_message subs _) as [[[]|e] w1]; [|reflexivity].
  rewrite multi_loop_step by (destruct stray; [simpl in Hstray; lia | discriminate]).
  assert (Hnone : unpack_u32 stray = None) by (apply unpack_u32_short; lia).
  rewrite Hnone. reflexivity.
Qed.

(** X18: a length prefix that announces more bytes than are left is not
    detected: the slice stops at the end of the buffer, the bytes that are
    left are parsed as the last sub-envelope and the loop ends without an
    error of its own. *)
Theorem multi_overlong_prefix (msg : Message) (subs : list bytes) (announced : Z)
    (left : bytes) (w : World) :
  body msg = BodyMulti 0 (pack_multi subs ++ pack_u32 announced ++ left) ->
  Forall (fun s => Z.of_nat (List.length s) < 2 ^ 32) subs ->
  Z.of_nat (List.length left) < announced < 2 ^ 32 ->
  _handle_multi msg w =
    (logger_debug "Unpacking CMsgMulti" [];;
     for_each _parse_message (subs ++ [left])) w.
Proof.
  intros Hbody Hsubs Hlen.
  rewrite (handle_multi_plain msg _ w Hbody).
  unfold bind at 1 2. unfold logger_debug, tell.
  rewrite multi_loop_pack_then by exact Hsubs.
  rewrite for_each_app.
  unfold bind at 1 2.
  destruct (for_each _parse_message subs _) as [[[]|e] w1]; [|reflexivity].
  rewrite multi_loop_step by (unfold pack_u32; simpl; discriminate).
  rewrite unpack_pack_u32 by lia.
  assert (Hslice : slice 4 (Z.to_nat announced) (pack_u32 announced ++ left) = left).
  { unfold slice, pack_u32. simpl skipn. apply firstn_all2. lia. }
  assert (Hrest : slice_from (4 + Z.to_nat announced) (pack_u32 announced ++ left) = []).
  { unfold slice_from, pack_u32. simpl skipn. apply skipn_all2. lia. }
  rewrite Hslice, Hrest. cbn [for_each]. unfold bind, ret.
  destruct (_parse_message left w1) as [[[]|e] w2]; [|reflexivity].
  apply multi_loop_nil.
Qed.

(** X19: when the archive member cannot be extracted, the exception of
    the extraction leaves the handler: nothing is parsed or emitted and,
    unlike on a size mismatch, no disconnect is spawned. *)
Theorem multi_unzip_failure (msg : Message) (declared : Z) (blob : bytes) (w : World) :
  body msg = BodyMulti declared blob ->
  declared <> 0 ->
  zip_read_z blob = None ->
  let w' := snd (_handle_multi msg w) in
  fst (_handle_multi msg w) = Raise (ZipException "read")
  /\ self w' = self w
  /\ emitted (added w w') = []
  /\ spawned TDisconnect (added w w') = []
  /\ fatal_logged (added w w') = false.
Proof.
  intros Hbody Hnz Hzip. cbv zeta.
  assert (E : _handle_multi msg w =
              (Raise (ZipException "read"),
               mkWorld (self w)
                 (trace w ++ [EvLog DEBUG "Unpacking CMsgMulti" [];
                              EvLog DEBUG "Unzipping body" []]))).
  { unfold _handle_multi. rewrite Hbody. run.
    destruct (Z.eqb_spec declared 0) as [|_]; [contradiction|]. simpl.
    rewrite Hzip. simpl. trace_eq. }
  rewrite E. cbn [fst snd self trace]. rewrite added_app.
  repeat split; reflexivity.
Qed.

Lemma for_each_parse_disconnected (subs : list bytes) (w : World) :
  connected (self w) = false ->
  for_each _parse_message subs w = (Ok tt, w).
Proof.
  intros Hc. induction subs as [|s subs IH]; [reflexivity|].
  cbn [for_each]. unfold bind.
  rewrite parse_message_disconnected by exact Hc. exact IH.
Qed.

(** X20: on a client that is not connected the sub-envelopes of a Multi
    body are all dropped: the handler walks the whole buffer, emits
    nothing and returns. *)
Theorem multi_when_disconnected (msg : Message) (subs : list bytes) (w : World) :
  body msg = BodyMulti 0 (pack_multi subs) ->
  Forall (fun s => Z.of_nat (List.length s) < 2 ^ 32) subs ->
  connected (self w) = false ->
  _handle_multi msg w =
    (Ok tt, mkWorld (self w) (trace w ++ [EvLog DEBUG "Unpacking CMsgMulti" []])).
Proof.
  intros Hbody Hsubs Hc.
  rewrite (handle_multi_plain msg _ w Hbody).
  unfold bind, logger_debug, tell.
  rewrite multi_loop_pack by exact Hsubs.
  rewrite for_each_parse_disconnected by exact Hc. reflexivity.
Qed.

(** *** Logon *)

(** X21: a logon-response with any result other than OK, TryAnotherCM
    and ServiceUnavailable is left to other subscribers: the handler
    returns without touching the session or any collaborator. *)
Theorem logon_other_result_ignored (msg : Message) (code : EResult)
    (seconds : Z) (w : World) :
  body msg = BodyLogonResponse code seconds ->
  code <> OK -> code <> TryAnotherCM -> code <> ServiceUnavailable ->
  _handle_logon msg w = (Ok tt, w).
Proof.
  intros Hbody Hok Htry Hsvc. unfold _handle_logon. rewrite Hbody.
  unfold bind at 1. unfold body_eresult, ret at 1. unfold EResult_eqb.
  destruct (EResult_eq_dec code TryAnotherCM) as [|_]; [contradiction|].
  destruct (EResult_eq_dec code ServiceUnavailable) as [|_]; [contradiction|].
  destruct (EResult_eq_dec code OK) as [|_]; [contradiction|].
  reflexivity.
Qed.

(** X22: after a successful logon, outgoing messages carry the session
    identifier of the logon-response when it is not zero, and the account
    identifier when it counts as true; the key material, and with it the
    cipher used, is what it was before the logon. *)
Theorem logon_then_send_stamped (msg : Message) (seconds : Z)
    (message : Message) (w : World) :
  body msg = BodyLogonResponse OK seconds ->
  let w' := snd (_handle_logon msg w) in
  let out := stamped (self w') message in
  sent (added w' (snd (send_message (VMsg message) w'))) = [wire (self w') message]
  /\ sessionID out
     = (if client_sessionid (header msg) =? 0 then sessionID message
        else Some (client_sessionid (header msg)))
  /\ steamID out
     = (if steam_id_bool (SteamID (steamid (header msg)))
        then Some (SteamID (steamid (header msg))) else steamID message)
  /\ key (self w') = key (self w)
  /\ hmac_secret (self w') = hmac_secret (self w).
Proof.
  intros Hbody. cbv zeta.
  rewrite send_message_sent.
  rewrite (handle_logon_ok_shape msg seconds w Hbody). cbv zeta.
  cbn [snd self]. unfold stamped.
  cbn [steam_id session_id set_heartbeat_loop set_session_id set_steam_id
       key hmac_secret int_bool].
  split; [reflexivity|].
  destruct (client_sessionid (header msg) =? 0);
    destruct (steam_id_bool (SteamID (steamid (header msg))));
    repeat split; reflexivity.
Qed.

End Client.

(* ===================================================================== *)
(** ** The further properties at concrete inputs                          *)
(* ===================================================================== *)

Lemma demo_unseal_seal (data k h : bytes) :
  k <> [] -> h <> [] -> Demo.unseal (Demo.seal data k h) k h = Some data.
Proof.
  intros _ Hh. destruct h as [|s h]; [congruence|].
  unfold Demo.seal, Demo.unseal. simpl.
  rewrite (Byte.byte_dec_lb (x:=s) (y:=s) eq_refl). reflexivity.
Qed.

Lemma connect_retries_until_up_witness :
  fst (connect [(3%nat, false); (0%nat, true)] Demo.fresh) = Ok Returned
  /\ emitted (added Demo.fresh
                (snd (connect [(3%nat, false); (0%nat, true)] Demo.fresh)))
     = [(Some (KName "connected"), [])].
Proof.
  assert (Hfails : Forall (fun a : nat * bool => snd a = false) [(3%nat, false)])
    by (repeat constructor).
  destruct (connect_retries_until_up [(3%nat, false)] [] 0%nat Demo.fresh Hfails)
    as (Hret & _ & Hemit & _).
  split; [exact Hret | exact Hemit].
Defined.

Lemma connect_all_failed_still_running_witness :
  fst (connect [(1%nat, false); (2%nat, false)] Demo.fresh) = Ok Running
  /\ self (snd (connect [(1%nat, false); (2%nat, false)] Demo.fresh))
     = self Demo.fresh.
Proof.
  assert (Hfails : Forall (fun a : nat * bool => snd a = false)
                     [(1%nat, false); (2%nat, false)])
    by (repeat constructor).
  destruct (connect_all_failed_still_running _ Demo.fresh Hfails)
    as (Hrun & Hself & _).
  split; [exact Hrun | exact Hself].
Defined.

Lemma disconnect_completes_witness :
  fst (disconnect false Demo.logged_on) = Ok tt
  /\ self (snd (disconnect false Demo.logged_on)) = reset (self Demo.logged_on)
  /\ heartbeats (trace (snd (disconnect false Demo.logged_on))) = [].
Proof.
  assert (Htracked : heartbeat_tracked Demo.logged_on) by reflexivity.
  destruct (disconnect_completes false 7%nat Demo.logged_on eq_refl)
    as (Hok & Hreset & _ & _ & _ & _ & Hquiet).
  split; [exact Hok|]. split; [exact Hreset | exact (Hquiet Htracked)].
Defined.

Lemma send_after_disconnect_is_plain_witness :
  sent (added (snd (disconnect true Demo.secured))
          (snd (@send_message Demo.collab (VMsg MsgProto_ClientHeartBeat)
                  (snd (disconnect true Demo.secured)))))
    = [@serialize Demo.collab MsgProto_ClientHeartBeat].
Proof.
  exact (@send_after_disconnect_is_plain Demo.collab true 7%nat
           MsgProto_ClientHeartBeat Demo.secured eq_refl).
Defined.

Lemma parse_message_dispatches_witness :
  @_parse_message Demo.collab Demo.sub1 Demo.online =
    emit (Some (KMsg (EMsgOther 5000)))
      [VMsg (mkMessage (EMsgOther 5000) false (mkHdr 0 0)
                       (BodyOther [x01; x02]) None None)]
      (mkWorld (self Demo.online)
         (trace Demo.online
            ++ [incoming_note (self Demo.online)
                  (mkMessage (EMsgOther 5000) false (mkHdr 0 0)
                             (BodyOther [x01; x02]) None None)])).
Proof.
  exact (@parse_message_dispatches Demo.collab Demo.sub1 5000 (EMsgOther 5000)
           (mkMessage (EMsgOther 5000) false (mkHdr 0 0)
                      (BodyOther [x01; x02]) None None)
           Demo.online eq_refl eq_refl eq_refl eq_refl).
Defined.

Lemma parse_message_bad_header_witness :
  @_parse_message Demo.collab [x01; x02] Demo.online = (Raise StructError, Demo.online)
  /\ @_parse_message Demo.collab (pack_u32 20000) Demo.online
     = (Raise (ValueError "is not a valid EMsg"), Demo.online).
Proof.
  destruct (@parse_message_bad_header Demo.collab [x01; x02] Demo.online eq_refl)
    as [Hshort _].
  destruct (@parse_message_bad_header Demo.collab (pack_u32 20000) Demo.online eq_refl)
    as [_ Hunknown].
  split.
  - apply Hshort. simpl. lia.
  - apply (Hunknown 20000); reflexivity.
Defined.


Lemma recv_stops_on_load_failure_witness :
  fst (@_recv_messages Demo.collab
         [Got Demo.truncated_other; Got Demo.sub1] Demo.online)
    = Raise (UnboundLocalError "msg").
Proof.
  destruct (@recv_stops_on_load_failure Demo.collab Demo.truncated_other 5000
              (EMsgOther 5000) "truncated message" [Got Demo.sub1] Demo.online
              eq_refl eq_refl eq_refl eq_refl eq_refl eq_refl)
    as (Hraise & _).
  exact Hraise.
Defined.

Lemma send_recv_round_trip_witness :
  @_recv_messages Demo.collab
    [Got (@wire Demo.collab (self Demo.secured) MsgProto_ClientHeartBeat)]
    Demo.secured =
    (@_parse_message Demo.collab
       (@serialize Demo.collab
          (@stamped Demo.collab (self Demo.secured) MsgProto_ClientHeartBeat));;
     @_recv_messages Demo.collab []) Demo.secured.
Proof.
  apply (@send_recv_round_trip Demo.collab MsgProto_ClientHeartBeat
           Demo.secured Demo.secured []
           (fun data k => eq_refl) demo_unseal_seal eq_refl eq_refl).
  reflexivity.
Defined.

Lemma handshake_failure_aborts_witness :
  key (self (snd (@_handle_encrypt_request Demo.hostile
                    (Demo.encrypt_request 1 [x05]) Demo.online)))
    = None
  /\ List.length
       (spawned TDisconnect
          (added (@awaiting_result Demo.hostile [x05] Demo.online)
             (snd (@_handle_encrypt_request Demo.hostile
                     (Demo.encrypt_request 1 [x05]) Demo.online))))
     = 1%nat.
Proof.
  assert (Hcode : EResultOther 2 <> OK) by discriminate.
  destruct (@handshake_failure_aborts Demo.hostile
              (Demo.encrypt_request 1 [x05]) [x05]
              (Demo.result_message (EResultOther 2)) (EResultOther 2)
              Demo.online (@awaiting_result Demo.hostile [x05] Demo.online)
              eq_refl eq_refl eq_refl Hcode)
    as (_ & Hself & _ & _ & Hspawn).
  split; [rewrite Hself; reflexivity | exact Hspawn].
Defined.

Lemma handshake_response_sent_witness :
  body (@encrypt_response Demo.hostile [x05])
    = BodyEncryptResponse (repeat x22 128) 4294967295
  /\ List.length
       (sent (added Demo.online (@awaiting_result Demo.hostile [x05] Demo.online)))
     = 1%nat.
Proof.
  destruct (@handshake_response_sent Demo.hostile (Demo.encrypt_request 1 [x05])
              [x05] Demo.online eq_refl)
    as (Hbody & _ & Hsent & _).
  split; [exact Hbody|]. rewrite Hsent. reflexivity.
Defined.

Lemma handshake_then_send_authenticated_witness :
  sent (added (snd (@_handle_encrypt_request Demo.collab
                      (Demo.encrypt_request 1 [x05]) Demo.online))
          (snd (@send_message Demo.collab (VMsg MsgProto_ClientHeartBeat)
                  (snd (@_handle_encrypt_request Demo.collab
                          (Demo.encrypt_request 1 [x05]) Demo.online)))))
    = [@symmetric_encrypt_HMAC Demo.collab
         (@serialize Demo.collab
            (@stamped Demo.collab
               (self (snd (@_handle_encrypt_request Demo.collab
                             (Demo.encrypt_request 1 [x05]) Demo.online)))
               MsgProto_ClientHeartBeat))
         (repeat x11 32) (firstn 16 (repeat x11 32))].
Proof.
  assert (Hc : [x05] <> []) by discriminate.
  assert (Hk : repeat x11 32 <> []) by discriminate.
  exact (@handshake_then_send_authenticated Demo.collab
           (Demo.encrypt_request 1 [x05]) [x05]
           (repeat x11 32) (repeat x22 128) (Demo.result_message OK)
           Demo.online (@awaiting_result Demo.collab [x05] Demo.online)
           MsgProto_ClientHeartBeat eq_refl eq_refl eq_refl eq_refl Hc Hk).
Defined.

Lemma multi_stray_tail_witness :
  fst (@_handle_multi Demo.collab
         (Demo.multi_with_body (pack_multi [Demo.sub1] ++ [x09; x09]))
         Demo.online)
    = Raise StructError.
Proof.
  assert (Hsubs : Forall (fun s => Z.of_nat (List.length s) < 2 ^ 32) [Demo.sub1])
    by (repeat constructor).
  assert (Hstray : (0 < List.length [x09; x09] < 4)%nat) by (simpl; lia).
  rewrite (@multi_stray_tail Demo.collab
             (Demo.multi_with_body (pack_multi [Demo.sub1] ++ [x09; x09]))
             [Demo.sub1] [x09; x09] Demo.online eq_refl Hsubs Hstray).
  reflexivity.
Defined.

Lemma multi_overlong_prefix_witness :
  @_handle_multi Demo.collab
    (Demo.multi_with_body (pack_multi [Demo.sub1] ++ pack_u32 500 ++ Demo.sub2))
    Demo.online =
    (logger_debug "Unpacking CMsgMulti" [];;
     for_each (@_parse_message Demo.collab) ([Demo.sub1] ++ [Demo.sub2])) Demo.online.
Proof.
  assert (Hsubs : Forall (fun s => Z.of_nat (List.length s) < 2 ^ 32) [Demo.sub1])
    by (repeat constructor).
  assert (Hlen : Z.of_nat (List.length Demo.sub2) < 500 < 2 ^ 32)
    by (split; reflexivity).
  exact (@multi_overlong_prefix Demo.collab
           (Demo.multi_with_body (pack_multi [Demo.sub1] ++ pack_u32 500 ++ Demo.sub2))
           [Demo.sub1] 500 Demo.sub2 Demo.online eq_refl Hsubs Hlen).
Defined.

Lemma multi_unzip_failure_witness :
  fst (@_handle_multi Demo.hostile (Demo.multi_zipped 9) Demo.online)
    = Raise (ZipException "read")
  /\ spawned TDisconnect
       (added Demo.online
          (snd (@_handle_multi Demo.hostile (Demo.multi_zipped 9) Demo.online)))
     = [].
Proof.
  assert (Hnz : 9 <> 0) by discriminate.
  destruct (@multi_unzip_failure Demo.hostile (Demo.multi_zipped 9) 9
              (frame Demo.sub1) Demo.online eq_refl Hnz eq_refl)
    as (Hraise & _ & _ & Hspawn & _).
  split; [exact Hraise | exact Hspawn].
Defined.

Lemma multi_when_disconnected_witness :
  @_handle_multi Demo.collab Demo.multi_plain Demo.fresh =
    (Ok tt, mkWorld (self Demo.fresh)
              (trace Demo.fresh ++ [EvLog DEBUG "Unpacking CMsgMulti" []])).
Proof.
  assert (Hsubs : Forall (fun s => Z.of_nat (List.length s) < 2 ^ 32)
                    [Demo.sub1; Demo.sub2])
    by (repeat constructor).
  exact (@multi_when_disconnected Demo.collab Demo.multi_plain
           [Demo.sub1; Demo.sub2] Demo.fresh eq_refl Hsubs eq_refl).
Defined.

Lemma logon_other_result_ignored_witness :
  _handle_logon (Demo.logon_response (EResultOther 5)) Demo.online
    = (Ok tt, Demo.online).
Proof.
  assert (H1 : EResultOther 5 <> OK) by discriminate.
  assert (H2 : EResultOther 5 <> TryAnotherCM) by discriminate.
  assert (H3 : EResultOther 5 <> ServiceUnavailable) by discriminate.
  exact (logon_other_result_ignored (Demo.logon_response (EResultOther 5))
           (EResultOther 5) 9 Demo.online eq_refl H1 H2 H3).
Defined.

Lemma logon_then_send_stamped_witness :
  sessionID (@stamped Demo.collab
               (self (snd (_handle_logon (Demo.logon_response OK) Demo.online)))
               MsgProto_ClientHeartBeat)
    = Some 42.
Proof.
  destruct (@logon_then_send_stamped Demo.collab (Demo.logon_response OK) 9
              MsgProto_ClientHeartBeat Demo.online eq_refl)
    as (_ & Hsession & _).
  rewrite Hsession. reflexivity.
Defined.
